(** * recon.py: DNS reconnaissance pipeline

    Shallow embedding of [src/recon.py] and the properties of its
    enumeration-and-resolution pipeline.

    Conventions of the model.
    - A Python [str] is a [string]: the sequence of its code points, for
      code points below 256.  [strip], [lower], [splitlines] follow
      Python's tables on that range.
    - A Python [dict] is an association list in insertion order; a [set]
      is a [gset].
    - The resolver, the HTTP client and the file system are external
      collaborators, given as the methods of the class [World]: each maps
      a request to its outcome, the same for the whole run.  A computation
      returns its outcome (a value or a raised exception) and the list of
      the external calls it made, in order.  Timeouts and request headers
      are arguments of the libraries and do not appear in the control
      flow; they are left out.
    - Exceptions are the subclasses of [Exception]; interrupts are not
      modelled.
    - The [print] calls of [main] are not modelled. *)

From Stdlib Require Import ZArith Ascii String List DecimalString ZifyBool Lia.
From stdpp Require Import base strings list gmap sorting.

Local Open Scope string_scope.
Local Open Scope Z_scope.
Set Warnings "-register-all".

(** ** Python string primitives *)

Module PyStr.

Definition code (c : ascii) : N := N_of_ascii c.

(** [str.isspace] on one character (code points below 256). *)
Definition is_space (c : ascii) : bool :=
  let n := code c in
  ((9 <=? n) && (n <=? 13) || (28 <=? n) && (n <=? 32)
   || (n =? 133) || (n =? 160))%N.

(** Line boundaries of [str.splitlines]. *)
Definition is_linebreak (c : ascii) : bool :=
  let n := code c in
  ((10 <=? n) && (n <=? 13) || (28 <=? n) && (n <=? 30) || (n =? 133))%N.

(** [str.lower] on one character: A-Z and the upper-case letters of the
    Latin-1 supplement (0xC0-0xDE without the multiplication sign). *)
Definition is_upper (c : ascii) : bool :=
  let n := code c in
  ((65 <=? n) && (n <=? 90)
   || (192 <=? n) && (n <=? 222) && negb (n =? 215))%N.

Definition lower_char (c : ascii) : ascii :=
  if is_upper c then ascii_of_N (code c + 32) else c.

Fixpoint lower (s : string) : string :=
  match s with
  | EmptyString => EmptyString
  | String c r => String (lower_char c) (lower r)
  end.

(** [s.lstrip(chars)] and [s.rstrip(chars)], the stripped characters
    given by a predicate. *)
Fixpoint lstrip_by (p : ascii -> bool) (s : string) : string :=
  match s with
  | EmptyString => EmptyString
  | String c r => if p c then lstrip_by p r else s
  end.

Fixpoint rstrip_by (p : ascii -> bool) (s : string) : string :=
  match s with
  | EmptyString => EmptyString
  | String c r =>
      match rstrip_by p r with
      | EmptyString => if p c then EmptyString else String c EmptyString
      | r' => String c r'
      end
  end.

(** [s.strip()] *)
Definition strip (s : string) : string :=
  rstrip_by is_space (lstrip_by is_space s).

(** [s.rstrip(".")] *)
Definition is_dot (c : ascii) : bool := (code c =? 46)%N.
Definition rstrip_dots (s : string) : string := rstrip_by is_dot s.

(** [s.startswith(p)] *)
Definition startswith (p s : string) : bool := String.prefix p s.

(** [s.endswith(suf)] *)
Fixpoint endswith (suf s : string) : bool :=
  if String.eqb s suf then true
  else match s with
       | EmptyString => false
       | String _ r => endswith suf r
       end.

(** [s[n:]] *)
Fixpoint drop (n : nat) (s : string) : string :=
  match n, s with
  | O, _ => s
  | S _, EmptyString => EmptyString
  | S n', String _ r => drop n' r
  end.

(** [s.splitlines()]: [cur] is the line being read, reversed ([None]
    when no character of it has been read); [after_cr] says that the
    previous character was a carriage return, so that a line feed that
    follows belongs to the same boundary. *)
Fixpoint splitlines_go (cur : option string) (after_cr : bool)
    (s : string) : list string :=
  match s with
  | EmptyString =>
      match cur with
      | Some l => [String.rev l]
      | None => []
      end
  | String c r =>
      if after_cr && (code c =? 10)%N then splitlines_go None false r
      else if is_linebreak c then
        String.rev (default EmptyString cur)
          :: splitlines_go None (code c =? 13)%N r
      else splitlines_go (Some (String c (default EmptyString cur))) false r
  end.

Definition splitlines (s : string) : list string :=
  splitlines_go None false s.

(** [str(n)] for an [int]. *)
Definition of_int (n : Z) : string := NilZero.string_of_int (Z.to_int n).

End PyStr.

(** ** Python values, exceptions and dictionaries *)

(** The objects that [json] parses and serializes, and that [main] stores
    in [results].  A [float] is carried by its [repr] text. *)
Inductive value : Type :=
| VNone
| VBool (b : bool)
| VInt (n : Z)
| VFloat (text : string)
| VStr (s : string)
| VList (l : list value)
| VDict (items : list (string * value)).

(** A raised exception, by the name of its class ([type(e).__name__]).
    Every exception of the model is a subclass of [Exception]. *)
Inductive exn : Type := Exception (type_name : string).

Definition exn_name (e : exn) : string :=
  match e with Exception n => n end.

Inductive res (A : Type) : Type :=
| Ok (a : A)
| Raise (e : exn).
Arguments Ok {A} a.
Arguments Raise {A} e.

Abbreviation dict V := (list (string * V)).

Module Dict.

(** [d[k] = v]: an existing key keeps its position. *)
Fixpoint set {V} (k : string) (v : V) (d : dict V) : dict V :=
  match d with
  | [] => [(k, v)]
  | (k', v') :: r =>
      if String.eqb k' k then (k', v) :: r else (k', v') :: set k v r
  end.

(** [d.get(k)] *)
Fixpoint get {V} (k : string) (d : dict V) : option V :=
  match d with
  | [] => None
  | (k', v') :: r => if String.eqb k' k then Some v' else get k r
  end.

(** [d[k]] *)
Definition getitem {V} (k : string) (d : dict V) : res V :=
  match get k d with
  | Some v => Ok v
  | None => Raise (Exception "KeyError")
  end.

(** [list(d)] *)
Definition keys {V} (d : dict V) : list string := map fst d.

End Dict.

Module PyVal.

Definition hex_digit (n : N) : ascii :=
  ascii_of_N (if (n <? 10)%N then 48 + n else 87 + n).

(** [str.isprintable] on one character (code points below 256). *)
Definition is_printable (c : ascii) : bool :=
  let n := PyStr.code c in
  negb ((n <? 32) || (127 <=? n) && (n <=? 160) || (n =? 173))%N.

Definition repr_char (quote : ascii) (c : ascii) : string :=
  let n := PyStr.code c in
  if (n =? 92)%N then "\\"
  else if Ascii.eqb c quote then String "\" (String c "")
  else if (n =? 9)%N then "\t"
  else if (n =? 10)%N then "\n"
  else if (n =? 13)%N then "\r"
  else if is_printable c then String c ""
  else String "\" (String "x" (String (hex_digit (n / 16))
                                 (String (hex_digit (n mod 16)) ""))).

Fixpoint contains (c : ascii) (s : string) : bool :=
  match s with
  | EmptyString => false
  | String c' r => Ascii.eqb c' c || contains c r
  end.

Fixpoint repr_chars (quote : ascii) (s : string) : string :=
  match s with
  | EmptyString => EmptyString
  | String c r => repr_char quote c ++ repr_chars quote r
  end.

(** The double quote character. *)
Definition dquote : ascii := ascii_of_N 34.

(** [repr(s)] for a [str]. *)
Definition repr_str (s : string) : string :=
  let quote : ascii :=
    if contains "'" s && negb (contains dquote s) then dquote
    else "'"%char in
  String quote (repr_chars quote s ++ String quote "").

(** [repr(v)] *)
Fixpoint repr (v : value) : string :=
  match v with
  | VNone => "None"
  | VBool true => "True"
  | VBool false => "False"
  | VInt n => PyStr.of_int n
  | VFloat t => t
  | VStr s => repr_str s
  | VList l => "[" ++ String.concat ", " (map repr l) ++ "]"
  | VDict items =>
      "{" ++ String.concat ", "
               (map (fun kv => let '(k, x) := kv in
                               repr_str k ++ ": " ++ repr x) items)
          ++ "}"
  end.

(** [str(v)] *)
Definition str (v : value) : string :=
  match v with
  | VStr s => s
  | _ => repr v
  end.

Fixpoint chars (s : string) : list value :=
  match s with
  | EmptyString => []
  | String c r => VStr (String c "") :: chars r
  end.

(** The items that [for x in v] runs over. *)
Definition iter (v : value) : res (list value) :=
  match v with
  | VList l => Ok l
  | VDict items => Ok (map (fun kv => VStr (fst kv)) items)
  | VStr s => Ok (chars s)
  | _ => Raise (Exception "TypeError")
  end.

(** [v.get(k, default)] *)
Definition get (v : value) (k : string) (dflt : value) : res value :=
  match v with
  | VDict items => Ok (default dflt (Dict.get k items))
  | _ => Raise (Exception "AttributeError")
  end.

End PyVal.

(** ** Computations and the outside world *)

(** The external calls of the program. *)
Inductive event : Type :=
| EvResolve (name rtype : string)
| EvGet (url : string) (params : dict string)
| EvHead (url : string)
| EvOpen (path mode : string)
| EvDump (path : string) (doc : value).

(** A computation: its outcome and the external calls it made. *)
Definition M (A : Type) : Type := res A * list event.

Definition outcome {A} (m : M A) : res A := fst m.
Definition trace {A} (m : M A) : list event := snd m.

Definition ret {A} (a : A) : M A := (Ok a, []).

Definition lift {A} (r : res A) : M A := (r, []).

Definition call {A} (ev : event) (r : res A) : M A := (r, [ev]).

Definition bind {A B} (m : M A) (k : A -> M B) : M B :=
  match outcome m with
  | Ok a => (outcome (k a), (trace m ++ trace (k a))%list)
  | Raise e => (Raise e, trace m)
  end.

(** [try: body / except Exception as e: handler e] *)
Definition try_except {A} (body : M A) (handler : exn -> M A) : M A :=
  match outcome body with
  | Ok a => (Ok a, trace body)
  | Raise e => (outcome (handler e), (trace body ++ trace (handler e))%list)
  end.

Notation "x <- m ;; k" := (bind m (fun x => k))
  (at level 100, m at next level, right associativity).

(** What [requests] hands back: the status code, the final URL and the
    outcome of [r.json()]. *)
Record Response : Type := {
  status_code : Z;
  url : string;
  json : res value
}.

Class World : Type := {
  (** [dns.resolver.Resolver()]: the resolver is built from the
      configuration of the system, or the exception raised on the way. *)
  resolver_new : res unit;
  (** [resolver.resolve(name, rtype)]: [str(a)] for each answer [a], or the
      exception raised by the query or by reading the answers. *)
  resolver_resolve : string -> string -> res (list string);
  (** [requests.get(url, params=params, ...)] *)
  requests_get : string -> dict string -> res Response;
  (** [requests.head(url, allow_redirects=True, ...)] *)
  requests_head : string -> res Response;
  (** [open(path, "r")] and the lines of the file. *)
  open_read : string -> res (list string);
  (** [open(path, "w")] *)
  open_write : string -> res unit
}.

(** ** The program *)

Definition DEFAULT_SUBS : list string :=
  [ "www"; "mail"; "owa"; "vpn"; "remote"; "portal"; "admin"; "api"; "dev";
    "test"; "stage"; "staging";
    "prod"; "beta"; "static"; "cdn"; "assets"; "blog"; "docs"; "help";
    "support";
    "ns1"; "ns2"; "autodiscover"; "m"; "webmail"; "smtp"; "imap"; "pop";
    "ftp"; "git"; "jira"; "confluence" ].

Section Program.
Context {W : World}.

(** [dns_query(name, rtype)], lines 20-30.  The resolver is built before
    the [try] block (line 21). *)
Definition dns_query (name rtype : string) : M (list string) :=
  _ <- lift resolver_new ;;
  try_except
    (answers <- call (EvResolve name rtype) (resolver_resolve name rtype) ;;
     ret (map PyStr.strip answers))
    (fun _ => ret []).

(** [resolve_host(host)], lines 33-39. *)
Definition resolve_host (host : string) : M (dict (list string)) :=
  a <- dns_query host "A" ;;
  aaaa <- dns_query host "AAAA" ;;
  cname <- dns_query host "CNAME" ;;
  txt <- dns_query host "TXT" ;;
  ret [("A", a); ("AAAA", aaaa); ("CNAME", cname); ("TXT", txt)].

(** Lines 59-63: one line of a [name_value] field. *)
Definition add_name (domain : string) (subs : gset string) (name : string)
    : gset string :=
  let name := PyStr.lower (PyStr.strip name) in
  let name := if PyStr.startswith "*." name then PyStr.drop 2 name else name in
  if PyStr.endswith ("." ++ PyStr.lower domain) name
     || String.eqb name (PyStr.lower domain)
  then subs ∪ {[ name ]}
  else subs.

(** Lines 55-63: the loop over the rows.  [subs] is updated in place, so
    the loop is given by the state of [subs] when it ends and by how it
    ends: normally or with an exception. *)
Fixpoint scan_rows (domain : string) (rows : list value) (subs : gset string)
    : gset string * res unit :=
  match rows with
  | [] => (subs, Ok tt)
  | row :: rest =>
      match PyVal.get row "name_value" (VStr "") with
      | Raise e => (subs, Raise e)
      | Ok nv =>
          scan_rows domain rest
            (fold_left (add_name domain) (PyStr.splitlines (PyVal.str nv)) subs)
      end
  end.

(** Lines 51-63: the body of the [try] block after [requests.get] has
    answered with [response].  It gives the state of [subs] when the block
    ends and how it ends: [Ok (Some v)] for [return v] (line 53),
    [Ok None] when control reaches the end of the block, [Raise e] for an
    exception. *)
Definition crtsh_body (domain : string) (response : res Response)
    (subs : gset string) : gset string * res (option (gset string)) :=
  match response with
  | Raise e => (subs, Raise e)
  | Ok r =>
      if negb (status_code r =? 200) then (subs, Ok (Some subs))
      else
        match json r with
        | Raise e => (subs, Raise e)
        | Ok data =>
            match PyVal.iter data with
            | Raise e => (subs, Raise e)
            | Ok rows =>
                match scan_rows domain rows subs with
                | (subs', Ok _) => (subs', Ok None)
                | (subs', Raise e) => (subs', Raise e)
                end
            end
        end
  end.

Definition crtsh_url : string := "https://crt.sh/".

(** [fetch_crtsh(domain)], lines 42-66. *)
Definition fetch_crtsh (domain : string) : M (gset string) :=
  let params := [("q", "%." ++ domain); ("output", "json")] in
  let subs : gset string := ∅ in
  let '(subs, ending) :=
    crtsh_body domain (requests_get crtsh_url params) subs in
  call (EvGet crtsh_url params)
    (match ending with
     | Ok (Some v) => Ok v
     | Ok None => Ok subs
     | Raise _ => Ok subs
     end).

(** Lines 75-80: the probe of one scheme. *)
Definition probe_scheme (host scheme : string) : M string :=
  let target := scheme ++ "://" ++ host in
  try_except
    (r <- call (EvHead target) (requests_head target) ;;
     ret (PyStr.of_int (status_code r) ++ " -> " ++ url r))
    (fun e => ret ("ERR (" ++ exn_name e ++ ")")).

Fixpoint probe_schemes (host : string) (schemes : list string)
    (results : dict string) : M (dict string) :=
  match schemes with
  | [] => ret results
  | scheme :: rest =>
      v <- probe_scheme host scheme ;;
      probe_schemes host rest (Dict.set scheme v results)
  end.

(** [http_probe(host)], lines 69-81. *)
Definition http_probe (host : string) : M (dict string) :=
  probe_schemes host ["https"; "http"] [].

(** Lines 88-91: the lines that are kept, stripped. *)
Fixpoint wordlist_lines (lines : list string) : list string :=
  match lines with
  | [] => []
  | line :: rest =>
      let s := PyStr.strip line in
      if String.eqb s "" || PyStr.startswith "#" s then wordlist_lines rest
      else s :: wordlist_lines rest
  end.

(** [load_wordlist(path)], lines 84-92. *)
Definition load_wordlist (path : string) : M (list string) :=
  lines <- call (EvOpen path "r") (open_read path) ;;
  ret (wordlist_lines lines).

End Program.

(** The command line, as [argparse] hands it over. *)
Module Args.
Record t : Type := {
  domain : string;
  wordlist : option string;
  no_crt : bool;
  probe : bool;
  json_out : option string
}.
End Args.

(** What a run of [main] leaves: its return value and the dictionary
    [results], which is what the summary and the JSON file are made from. *)
Record Run : Type := {
  exit_code : Z;
  results : dict value
}.

(** [if x:] for an optional string argument: [None] and the empty string
    are false. *)
Definition given (x : option string) : option string :=
  match x with
  | Some s => if String.eqb s "" then None else Some s
  | None => None
  end.

(** Line 104 *)
Definition normalize_domain (raw : string) : string :=
  PyStr.rstrip_dots (PyStr.lower (PyStr.strip raw)).

(** Line 105 *)
Definition initial_results (domain : string) : dict value :=
  [("domain", VStr domain); ("root", VDict []); ("dns", VDict []);
   ("subdomains", VDict [])].

(** A record set, seen as an object. *)
Definition of_records (rec : dict (list string)) : value :=
  VDict (map (fun kv => (fst kv, VList (map VStr (snd kv)))) rec).

(** The result of a probe, seen as an object. *)
Definition of_probe (p : dict string) : value :=
  VDict (map (fun kv => (fst kv, VStr (snd kv))) p).

(** [sorted(candidates)] *)
Definition sorted (candidates : gset string) : list string :=
  merge_sort String.le (elements candidates).

(** [any(rec[k] for k in ks)] *)
Fixpoint any_nonempty (rec : dict (list string)) (ks : list string) : res bool :=
  match ks with
  | [] => Ok false
  | k :: rest =>
      match Dict.getitem k rec with
      | Raise e => Raise e
      | Ok [] => any_nonempty rec rest
      | Ok (_ :: _) => Ok true
      end
  end.

(** [results["subdomains"][host] = entry] *)
Definition set_subdomain (results : dict value) (host : string) (entry : value)
    : res (dict value) :=
  match Dict.getitem "subdomains" results with
  | Raise e => Raise e
  | Ok (VDict subs) =>
      Ok (Dict.set "subdomains" (VDict (Dict.set host entry subs)) results)
  | Ok _ => Raise (Exception "TypeError")
  end.

Section Main.
Context {W : World}.

(** Lines 108-115 *)
Definition root_records (domain : string) : M (dict (list string)) :=
  ns <- dns_query domain "NS" ;;
  mx <- dns_query domain "MX" ;;
  soa <- dns_query domain "SOA" ;;
  txt <- dns_query domain "TXT" ;;
  a <- dns_query domain "A" ;;
  aaaa <- dns_query domain "AAAA" ;;
  ret [("NS", ns); ("MX", mx); ("SOA", soa); ("TXT", txt); ("A", a);
       ("AAAA", aaaa)].

(** Lines 122-123 *)
Definition add_words (domain : string) (base : list string)
    (candidates : gset string) : gset string :=
  fold_left (fun c s => c ∪ {[ s ++ "." ++ domain ]}) base candidates.

(** Lines 118-127 *)
Definition collect_candidates (args : Args.t) (domain : string)
    : M (gset string) :=
  let candidates : gset string := ∅ in
  base <- match given (Args.wordlist args) with
          | Some path => load_wordlist path
          | None => ret DEFAULT_SUBS
          end ;;
  let candidates := add_words domain base candidates in
  if Args.no_crt args then ret candidates
  else
    ct <- fetch_crtsh domain ;;
    ret (candidates ∪ ct).

(** Lines 130-139 *)
Fixpoint resolve_candidates (probe : bool) (hosts : list string)
    (results : dict value) : M (dict value) :=
  match hosts with
  | [] => ret results
  | host :: rest =>
      rec <- resolve_host host ;;
      has_any <- lift (any_nonempty rec ["A"; "AAAA"; "CNAME"]) ;;
      if negb has_any then resolve_candidates probe rest results
      else
        let entry : dict value := [("records", of_records rec)] in
        entry <- (if probe
                  then p <- http_probe host ;;
                       ret (Dict.set "http" (of_probe p) entry)
                  else ret entry) ;;
        results <- lift (set_subdomain results host (VDict entry)) ;;
        resolve_candidates probe rest results
  end.

(** Lines 164-166 *)
Definition write_json (args : Args.t) (results : dict value) : M unit :=
  match given (Args.json_out args) with
  | Some path =>
      _ <- call (EvOpen path "w") (open_write path) ;;
      call (EvDump path (VDict results)) (Ok tt)
  | None => ret tt
  end.

(** [main()], lines 95-169, from the parsed arguments. *)
Definition main (args : Args.t) : M Run :=
  let domain := normalize_domain (Args.domain args) in
  let results := initial_results domain in
  root <- root_records domain ;;
  let results := Dict.set "root" (of_records root) results in
  candidates <- collect_candidates args domain ;;
  results <- resolve_candidates (Args.probe args) (sorted candidates) results ;;
  _ <- write_json args results ;;
  ret {| exit_code := 0; results := results |}.

End Main.

(** ** A stub world for examples *)

Module Stub.

Definition resolve (name rtype : string) : res (list string) :=
  if String.eqb name "www.example.com" && String.eqb rtype "A"
  then Ok ["93.184.216.34"]
  else if String.eqb name "dev.example.com" && String.eqb rtype "CNAME"
  then Ok ["www.example.com."]
  else if String.eqb name "example.com" && String.eqb rtype "NS"
  then Ok ["a.iana-servers.net."; "b.iana-servers.net."]
  else Raise (Exception "NXDOMAIN").

Definition ct_rows : value :=
  VList [VDict [("name_value",
                 VStr ("*.dev.example.com" ++ String "010" "Mail.Example.com"))];
         VDict [("name_value", VStr "other.org")]].

Definition get (url : string) (params : dict string) : res Response :=
  Ok {| status_code := 200; url := url; json := Ok ct_rows |}.

Definition head (url : string) : res Response :=
  if String.eqb url "https://www.example.com"
  then Ok {| status_code := 301; url := "https://www.example.com/login";
             json := Raise (Exception "JSONDecodeError") |}
  else Raise (Exception "ConnectionError").

Definition read (path : string) : res (list string) :=
  if String.eqb path "words.txt"
  then Ok ["# common names" ++ String "010" ""; "www" ++ String "010" "";
           String "010" ""; "  dev  " ++ String "010" ""]
  else Raise (Exception "FileNotFoundError").

Definition write (path : string) : res unit := Ok tt.

Definition world : World := {|
  resolver_new := Ok tt;
  resolver_resolve := resolve;
  requests_get := get;
  requests_head := head;
  open_read := read;
  open_write := write
|}.

Definition args : Args.t := {|
  Args.domain := " Example.COM. ";
  Args.wordlist := Some "words.txt";
  Args.no_crt := false;
  Args.probe := true;
  Args.json_out := Some "out.json"
|}.

(** The world of [Stub], with another answer of crt.sh. *)
Definition ct_world (response : res Response) : World := {|
  resolver_new := Ok tt;
  resolver_resolve := resolve;
  requests_get := fun _ _ => response;
  requests_head := head;
  open_read := read;
  open_write := write
|}.

(** The world of [Stub], with another content of every word list. *)
Definition wordlist_world (lines : list string) : World := {|
  resolver_new := Ok tt;
  resolver_resolve := resolve;
  requests_get := get;
  requests_head := head;
  open_read := fun _ => Ok lines;
  open_write := write
|}.

Definition ok_json (data : value) : res Response :=
  Ok {| status_code := 200; url := crtsh_url; json := Ok data |}.

(** A body whose second row is not an object. *)
Definition broken_rows : value :=
  VList [VDict [("name_value", VStr "*.dev.example.com")]; VInt 5].

(** A certificate name with two wildcard labels. *)
Definition wildcard_rows : value :=
  VList [VDict [("name_value", VStr "*.*.example.com")]].

(** A run on a word list, without crt.sh. *)
Definition wordlist_args : Args.t := {|
  Args.domain := "example.com";
  Args.wordlist := Some "words.txt";
  Args.no_crt := true;
  Args.probe := false;
  Args.json_out := None
|}.

(** The candidates of the run [args]. *)
Definition candidates : gset string :=
  list_to_set ["www.example.com"; "dev.example.com"; "mail.example.com"].

End Stub.

(** ** What the collaborators answer, as the program sees it *)

Section Answers.
Context {W : World}.

(** The list that [dns_query] returns. *)
Definition answers (name rtype : string) : list string :=
  match resolver_resolve name rtype with
  | Ok l => map PyStr.strip l
  | Raise _ => []
  end.

(** The string that the probe of one scheme stores. *)
Definition probe_result (host scheme : string) : string :=
  match requests_head (scheme ++ "://" ++ host) with
  | Ok r => PyStr.of_int (status_code r) ++ " -> " ++ url r
  | Raise e => "ERR (" ++ exn_name e ++ ")"
  end.

End Answers.

(** A record set has an address or alias record. *)
Definition has_address (rec : dict (list string)) : Prop :=
  exists k x l, k ∈ ["A"; "AAAA"; "CNAME"] /\ Dict.get k rec = Some (x :: l).

(** The [subdomains] mapping of a run. *)
Definition subdomains (run : Run) : dict value :=
  match Dict.get "subdomains" (results run) with
  | Some (VDict d) => d
  | _ => []
  end.

(** ** What the loop over the candidates leaves *)

Definition nonempty {A} (l : list A) : bool :=
  match l with
  | [] => false
  | _ :: _ => true
  end.

Section Report.
Context {W : World}.

(** The record set that [resolve_host] returns. *)
Definition records (host : string) : dict (list string) :=
  [("A", answers host "A"); ("AAAA", answers host "AAAA");
   ("CNAME", answers host "CNAME"); ("TXT", answers host "TXT")].

(** The record set of the root domain. *)
Definition root_of (domain : string) : dict (list string) :=
  [("NS", answers domain "NS"); ("MX", answers domain "MX");
   ("SOA", answers domain "SOA"); ("TXT", answers domain "TXT");
   ("A", answers domain "A"); ("AAAA", answers domain "AAAA")].

(** The host passes the test of line 132. *)
Definition live (host : string) : bool :=
  nonempty (answers host "A") || nonempty (answers host "AAAA")
  || nonempty (answers host "CNAME").

(** The entry stored for a host that passed. *)
Definition entry_of (probe : bool) (host : string) : value :=
  VDict (if probe
         then [("records", of_records (records host));
               ("http", of_probe [("https", probe_result host "https");
                                  ("http", probe_result host "http")])]
         else [("records", of_records (records host))]).

(** The external calls of one round of the loop. *)
Definition round_events (probe : bool) (host : string) : list event :=
  ([EvResolve host "A"; EvResolve host "AAAA"; EvResolve host "CNAME";
    EvResolve host "TXT"]
   ++ (if live host && probe
       then [EvHead ("https://" ++ host); EvHead ("http://" ++ host)]
       else []))%list.

(** The entries of [subdomains] after the loop over [hosts]. *)
Definition entries_of (probe : bool) (hosts : list string) : dict value :=
  map (fun h => (h, entry_of probe h)) (filter (fun h => Is_true (live h)) hosts).

(** [results] at the end of [main]. *)
Definition final_results (probe : bool) (domain : string)
    (candidates : gset string) : dict value :=
  [("domain", VStr domain); ("root", of_records (root_of domain));
   ("dns", VDict []);
   ("subdomains", VDict (entries_of probe (sorted candidates)))].

End Report.

Section Collected.
Context {W : World}.

(** The request that [fetch_crtsh] sends. *)
Definition crtsh_params (domain : string) : dict string :=
  [("q", "%." ++ domain); ("output", "json")].

(** The set that [fetch_crtsh] returns. *)
Definition ct_names (domain : string) : gset string :=
  match crtsh_body domain (requests_get crtsh_url (crtsh_params domain)) ∅ with
  | (_, Ok (Some v)) => v
  | (subs, _) => subs
  end.

(** The external calls of the root queries. *)
Definition root_events (domain : string) : list event :=
  [EvResolve domain "NS"; EvResolve domain "MX"; EvResolve domain "SOA";
   EvResolve domain "TXT"; EvResolve domain "A"; EvResolve domain "AAAA"].

End Collected.

(** Every character of [s] satisfies [p]. *)
Fixpoint all_chars (p : ascii -> bool) (s : string) : bool :=
  match s with
  | EmptyString => true
  | String c r => p c && all_chars p r
  end.

(** [args], with another domain argument. *)
Definition with_domain (args : Args.t) (raw : string) : Args.t :=
  {| Args.domain := raw;
     Args.wordlist := Args.wordlist args;
     Args.no_crt := Args.no_crt args;
     Args.probe := Args.probe args;
     Args.json_out := Args.json_out args |}.

(** ** The shape of the JSON document *)

(** An array of strings. *)
Definition string_array (v : value) : Prop :=
  exists l, v = VList (map VStr l).

(** An object with the keys [types], in this order, whose values are
    arrays of strings. *)
Definition record_object (types : list string) (v : value) : Prop :=
  exists items,
    v = VDict items /\ Dict.keys items = types
    /\ forall k x, (k, x) ∈ items -> string_array x.

(** An object with the keys https and http, whose values are strings. *)
Definition probe_object (v : value) : Prop :=
  exists items,
    v = VDict items /\ Dict.keys items = ["https"; "http"]
    /\ forall k x, (k, x) ∈ items -> exists s, x = VStr s.

(** An object with a [records] field and, for a run that probes, an
    [http] field. *)
Definition entry_object (probed : bool) (v : value) : Prop :=
  exists recs,
    record_object ["A"; "AAAA"; "CNAME"; "TXT"] recs
    /\ if probed
       then exists p, probe_object p
                      /\ v = VDict [("records", recs); ("http", p)]
       else v = VDict [("records", recs)].

(** The name that [add_name] tests, from a line of a [name_value]. *)
Definition cleaned (line : string) : string :=
  let name := PyStr.lower (PyStr.strip line) in
  if PyStr.startswith "*." name then PyStr.drop 2 name else name.

(** ** Reading a trace *)

(** The names queried for the record type [rtype], in the order of the
    queries. *)
Fixpoint queried (rtype : string) (t : list event) : list string :=
  match t with
  | [] => []
  | EvResolve name rtype' :: rest =>
      if String.eqb rtype' rtype then name :: queried rtype rest
      else queried rtype rest
  | _ :: rest => queried rtype rest
  end.

(** ** Worlds and arguments for the edge cases *)

Module Cases.

(** The run of [Stub.args] on a word list that does not exist. *)
Definition missing_args : Args.t := {|
  Args.domain := " Example.COM. ";
  Args.wordlist := Some "missing.txt";
  Args.no_crt := false;
  Args.probe := true;
  Args.json_out := Some "out.json"
|}.

(** The run of [Stub.args] on the built-in list, without crt.sh and
    without JSON output. *)
Definition plain_args : Args.t := {|
  Args.domain := "example.com";
  Args.wordlist := Some "";
  Args.no_crt := true;
  Args.probe := false;
  Args.json_out := None
|}.

(** The world of [Stub], where no file can be written. *)
Definition readonly_world : World := {|
  resolver_new := Ok tt;
  resolver_resolve := Stub.resolve;
  requests_get := Stub.get;
  requests_head := Stub.head;
  open_read := Stub.read;
  open_write := fun _ => Raise (Exception "PermissionError")
|}.

(** The world of [Stub], where the resolver cannot be built. *)
Definition no_resolver_world : World := {|
  resolver_new := Raise (Exception "NoResolverConfiguration");
  resolver_resolve := Stub.resolve;
  requests_get := Stub.get;
  requests_head := Stub.head;
  open_read := Stub.read;
  open_write := Stub.write
|}.

End Cases.

(** The test of line 62 on a line of a [name_value]. *)
Definition kept (domain line : string) : bool :=
  PyStr.endswith ("." ++ PyStr.lower domain) (cleaned line)
  || String.eqb (cleaned line) (PyStr.lower domain).

(** A row that is an object. *)
Definition is_object (row : value) : Prop := exists items, row = VDict items.

(** ** The summary that [main] prints *)

Definition and_then {A B} (r : res A) (k : A -> res B) : res B :=
  match r with
  | Ok a => k a
  | Raise e => Raise e
  end.

Notation "x <~ r ;; k" := (and_then r (fun x => k))
  (at level 100, r at next level, right associativity).

(** The strings that were printed, one for each call of [print], and how
    the code that printed them ended. *)
Definition Out : Type := list string * res unit.

Module Summary.

(** [bool(v)] *)
Definition truthy (v : value) : bool :=
  match v with
  | VNone => false
  | VBool b => b
  | VInt n => negb (n =? 0)
  | VFloat t => negb (String.eqb t "0.0" || String.eqb t "-0.0")
  | VStr s => negb (String.eqb s "")
  | VList l => match l with [] => false | _ :: _ => true end
  | VDict items => match items with [] => false | _ :: _ => true end
  end.

(** [v[k]] for a string [k] *)
Definition getitem (v : value) (k : string) : res value :=
  match v with
  | VDict items => Dict.getitem k items
  | _ => Raise (Exception "TypeError")
  end.

(** The strings of a list of values, when all are strings. *)
Fixpoint strings (l : list value) : res (list string) :=
  match l with
  | [] => Ok []
  | VStr s :: rest => rest' <~ strings rest ;; Ok (s :: rest')
  | _ :: _ => Raise (Exception "TypeError")
  end.

(** [sep.join(v)] *)
Definition join (sep : string) (v : value) : res string :=
  items <~ PyVal.iter v ;;
  parts <~ strings items ;;
  Ok (String.concat sep parts).

Definition newline : string := String "010" "".

(** [p] and then [q], when [p] ends without exception. *)
Definition seq (p q : Out) : Out :=
  match snd p with
  | Ok _ => ((fst p ++ fst q)%list, snd q)
  | Raise e => p
  end.

(** Lines 144-146: the lines for the record types of the root. *)
Definition root_section (root : value) : Out :=
  match root with
  | VDict items =>
      (flat_map (fun kv => if truthy (snd kv)
                           then [fst kv ++ ": " ++ PyVal.str (snd kv)]
                           else []) items,
       Ok tt)
  | _ => ([], Raise (Exception "AttributeError"))
  end.

(** Lines 152-157: what is appended to [parts] for the record type [k]. *)
Definition part (rec : value) (k : string) : res (list string) :=
  v <~ PyVal.get rec k VNone ;;
  if truthy v
  then (x <~ getitem rec k ;;
        s <~ join "," x ;;
        Ok [k ++ "=" ++ s])
  else Ok [].

(** Lines 150-158: the line of a host. *)
Definition host_line (host : string) (data : value) : res string :=
  rec <~ getitem data "records" ;;
  cname <~ part rec "CNAME" ;;
  a <~ part rec "A" ;;
  aaaa <~ part rec "AAAA" ;;
  Ok ("- " ++ host ++ "  ("
      ++ String.concat " | " (cname ++ a ++ aaaa)%list ++ ")").

(** Lines 160-161, reached when [data] is an object. *)
Definition http_line (probe : bool) (data : value) : list string :=
  if probe
  then match data with
       | VDict items =>
           match Dict.get "http" items with
           | Some v => ["    HTTP: " ++ PyVal.str v]
           | None => []
           end
       | _ => []
       end
  else [].

(** Lines 149-161: the loop over the hosts of the report. *)
Fixpoint host_section (probe : bool) (items : dict value) : Out :=
  match items with
  | [] => ([], Ok tt)
  | (host, data) :: rest =>
      match host_line host data with
      | Raise e => ([], Raise e)
      | Ok line =>
          seq (line :: http_line probe data, Ok tt) (host_section probe rest)
      end
  end.

(** Lines 142-161: the summary, from [domain] and [results]. *)
Definition summary (probe : bool) (domain : string) (results : dict value)
    : Out :=
  seq (["== " ++ domain ++ " =="; newline ++ "[Root DNS]"], Ok tt)
    (seq (match Dict.getitem "root" results with
          | Raise e => ([], Raise e)
          | Ok root => root_section root
          end)
       (seq ([newline ++ "[Resolved subdomains]"], Ok tt)
          (match Dict.getitem "subdomains" results with
           | Raise e => ([], Raise e)
           | Ok (VDict items) => host_section probe items
           | Ok _ => ([], Raise (Exception "AttributeError"))
           end))).

End Summary.

(** The parts of the line of a host, from its record set. *)
Definition shown (rec : dict (list string)) (k : string) : list string :=
  match Dict.get k rec with
  | Some (x :: l) => [k ++ "=" ++ String.concat "," (x :: l)]
  | _ => []
  end.

(** The text between the parentheses of the line of a host. *)
Definition host_parts (rec : dict (list string)) : string :=
  String.concat " | " (shown rec "CNAME" ++ shown rec "A" ++ shown rec "AAAA")%list.

(** The lines of the root section, from the record set of the root. *)
Definition root_text (root : dict (list string)) : list string :=
  flat_map (fun kv => match snd kv with
                      | [] => []
                      | _ :: _ => [fst kv ++ ": "
                                   ++ PyVal.repr (VList (map VStr (snd kv)))]
                      end) root.

Section SummaryText.
Context {W : World}.

(** The lines of a reported host: its line and, when the run probes, the
    line of its probe. *)
Definition host_block (probe : bool) (host : string) : list string :=
  ("- " ++ host ++ "  (" ++ host_parts (records host) ++ ")")
    :: (if probe
        then ["    HTTP: "
              ++ PyVal.repr (of_probe [("https", probe_result host "https");
                                       ("http", probe_result host "http")])]
        else []).

End SummaryText.

(** * Properties *)

(** ** Running computations *)

Lemma bind_ret {A B} (a : A) (k : A -> M B) : bind (ret a) k = k a.
Proof. unfold bind, ret; simpl. destruct (k a); reflexivity. Qed.

Lemma bind_ok {A B} (a : A) (t : list event) (k : A -> M B) :
  bind (Ok a, t) k = (outcome (k a), (t ++ trace (k a))%list).
Proof. reflexivity. Qed.

Lemma bind_raise {A B} (e : exn) (t : list event) (k : A -> M B) :
  bind (Raise e, t) k = (Raise e, t).
Proof. reflexivity. Qed.

Lemma lift_ok {A} (a : A) : lift (Ok a) = ret a.
Proof. reflexivity. Qed.

Section ProgramFacts.
Context {W : World}.
Hypothesis configured : resolver_new = Ok tt.

(** ** [dns_query] and [resolve_host] *)

Lemma dns_query_run name rtype :
  dns_query name rtype = (Ok (answers name rtype), [EvResolve name rtype]).
Proof.
  unfold dns_query. rewrite configured, lift_ok, bind_ret.
  unfold answers, try_except, bind, call, ret; simpl.
  destruct (resolver_resolve name rtype); reflexivity.
Qed.

Lemma resolve_host_run host :
  resolve_host host =
    (Ok [("A", answers host "A"); ("AAAA", answers host "AAAA");
         ("CNAME", answers host "CNAME"); ("TXT", answers host "TXT")],
     [EvResolve host "A"; EvResolve host "AAAA"; EvResolve host "CNAME";
      EvResolve host "TXT"]).
Proof. unfold resolve_host. rewrite !dns_query_run. reflexivity. Qed.

Lemma root_records_run domain :
  root_records domain =
    (Ok [("NS", answers domain "NS"); ("MX", answers domain "MX");
         ("SOA", answers domain "SOA"); ("TXT", answers domain "TXT");
         ("A", answers domain "A"); ("AAAA", answers domain "AAAA")],
     [EvResolve domain "NS"; EvResolve domain "MX"; EvResolve domain "SOA";
      EvResolve domain "TXT"; EvResolve domain "A"; EvResolve domain "AAAA"]).
Proof. unfold root_records. rewrite !dns_query_run. reflexivity. Qed.

(** ** [http_probe] *)

Lemma probe_scheme_run host scheme :
  probe_scheme host scheme =
    (Ok (probe_result host scheme), [EvHead (scheme ++ "://" ++ host)]).
Proof.
  unfold probe_scheme, probe_result, try_except, bind, call, ret; simpl.
  destruct (requests_head _); reflexivity.
Qed.

Lemma http_probe_run host :
  http_probe host =
    (Ok [("https", probe_result host "https");
         ("http", probe_result host "http")],
     [EvHead ("https://" ++ host); EvHead ("http://" ++ host)]).
Proof.
  unfold http_probe. simpl. rewrite !probe_scheme_run. reflexivity.
Qed.

End ProgramFacts.

(** ** Dictionaries *)

Section DictFacts.
Context {V : Type}.
Implicit Types (d : dict V) (k : string) (v : V).

Lemma dict_set_fresh k v d :
  k ∉ Dict.keys d -> Dict.set k v d = (d ++ [(k, v)])%list.
Proof.
  induction d as [|[k' v'] d IH]; simpl; intros Hk; [reflexivity|].
  apply not_elem_of_cons in Hk as [Hne Hk].
  destruct (String.eqb_spec k' k) as [->|_]; [congruence|].
  by rewrite IH.
Qed.

Lemma dict_get_set k v d : Dict.get k (Dict.set k v d) = Some v.
Proof.
  induction d as [|[k' v'] d IH]; simpl.
  - by rewrite String.eqb_refl.
  - destruct (String.eqb_spec k' k) as [->|Hne]; simpl.
    + by rewrite String.eqb_refl.
    + by destruct (String.eqb_spec k' k).
Qed.

Lemma dict_set_set k v1 v2 d :
  Dict.set k v2 (Dict.set k v1 d) = Dict.set k v2 d.
Proof.
  induction d as [|[k' v'] d IH]; simpl.
  - by rewrite String.eqb_refl.
  - destruct (String.eqb_spec k' k) as [->|Hne]; simpl.
    + by rewrite String.eqb_refl.
    + destruct (String.eqb_spec k' k); [done|]. by rewrite IH.
Qed.

Lemma dict_set_id k v d : Dict.get k d = Some v -> Dict.set k v d = d.
Proof.
  induction d as [|[k' v'] d IH]; simpl; [discriminate|].
  destruct (String.eqb_spec k' k) as [->|_].
  - by intros [= ->].
  - intros Hg. by rewrite IH.
Qed.

Lemma dict_keys_app d1 d2 :
  Dict.keys (d1 ++ d2)%list = (Dict.keys d1 ++ Dict.keys d2)%list.
Proof. apply map_app. Qed.

End DictFacts.

Section LoopFacts.
Context {W : World}.
Hypothesis configured : resolver_new = Ok tt.

Lemma any_nonempty_records host :
  any_nonempty (records host) ["A"; "AAAA"; "CNAME"] = Ok (live host).
Proof.
  unfold live, records; simpl. unfold Dict.getitem; simpl.
  destruct (answers host "A"); [|reflexivity].
  destruct (answers host "AAAA"); [|reflexivity].
  destruct (answers host "CNAME"); reflexivity.
Qed.

Lemma set_subdomain_run results host entry subs :
  Dict.get "subdomains" results = Some (VDict subs) ->
  set_subdomain results host entry =
    Ok (Dict.set "subdomains" (VDict (Dict.set host entry subs)) results).
Proof. intros Hs. unfold set_subdomain, Dict.getitem. by rewrite Hs. Qed.

Lemma entries_of_cons probe h hosts :
  entries_of probe (h :: hosts) =
    if live h then (h, entry_of probe h) :: entries_of probe hosts
    else entries_of probe hosts.
Proof.
  unfold entries_of. rewrite filter_cons.
  destruct (live h); simpl; by repeat case_decide.
Qed.

Lemma entries_of_keys probe hosts :
  Dict.keys (entries_of probe hosts) = filter (fun h => Is_true (live h)) hosts.
Proof.
  unfold entries_of, Dict.keys. rewrite map_map. simpl. apply map_id.
Qed.

Lemma resolve_candidates_cons probe host rest results :
  resolve_candidates probe (host :: rest) results =
    (rec <- resolve_host host ;;
     has_any <- lift (any_nonempty rec ["A"; "AAAA"; "CNAME"]) ;;
     if negb has_any then resolve_candidates probe rest results
     else
       let entry : dict value := [("records", of_records rec)] in
       entry <- (if probe
                 then p <- http_probe host ;;
                      ret (Dict.set "http" (of_probe p) entry)
                 else ret entry) ;;
       results <- lift (set_subdomain results host (VDict entry)) ;;
       resolve_candidates probe rest results).
Proof. reflexivity. Qed.

(** The whole loop, when no host is a key of [subdomains] yet. *)
Lemma resolve_candidates_run probe hosts : forall results subs,
  Dict.get "subdomains" results = Some (VDict subs) ->
  NoDup hosts ->
  (forall h, h ∈ hosts -> h ∉ Dict.keys subs) ->
  resolve_candidates probe hosts results =
    (Ok (Dict.set "subdomains" (VDict (subs ++ entries_of probe hosts)%list)
           results),
     concat (map (round_events probe) hosts)).
Proof.
  induction hosts as [|h hosts IH]; intros results subs Hs Hnd Hfresh.
  - simpl. unfold ret, entries_of. simpl. rewrite app_nil_r.
    by rewrite dict_set_id.
  - apply NoDup_cons in Hnd as [Hnotin Hnd].
    rewrite resolve_candidates_cons, (resolve_host_run configured), bind_ok.
    cbv beta.
    fold (records h). rewrite any_nonempty_records, lift_ok, bind_ret.
    rewrite entries_of_cons. cbn [concat map]. unfold round_events at 1.
    destruct (live h) eqn:Hlive; simpl negb; cbv iota.
    + assert (Hk : h ∉ Dict.keys subs) by (apply Hfresh; left).
      assert (Hrest : forall e h', h' ∈ hosts ->
                h' ∉ Dict.keys (subs ++ [(h, e)])%list).
      { intros e h' Hin. rewrite dict_keys_app. simpl.
        rewrite elem_of_app, list_elem_of_singleton.
        intros [Hin'| ->]; [|done].
        eapply Hfresh; [right; exact Hin|exact Hin']. }
      destruct probe; simpl andb; cbv iota.
      * rewrite http_probe_run, bind_ok. cbv beta.
        cbn [ret outcome trace fst snd]. rewrite app_nil_r, bind_ok.
        cbv beta. erewrite set_subdomain_run by exact Hs.
        rewrite lift_ok, bind_ret, (dict_set_fresh h _ subs Hk).
        erewrite IH; [|apply dict_get_set|exact Hnd|apply Hrest].
        rewrite dict_set_set. cbn [outcome trace fst snd].
        rewrite <- !app_assoc. reflexivity.
      * rewrite bind_ret. erewrite set_subdomain_run by exact Hs.
        rewrite lift_ok, bind_ret, (dict_set_fresh h _ subs Hk).
        erewrite IH; [|apply dict_get_set|exact Hnd|apply Hrest].
        rewrite dict_set_set. cbn [outcome trace fst snd].
        rewrite <- !app_assoc. reflexivity.
    + erewrite IH; [|exact Hs|exact Hnd|].
      * cbn [outcome trace fst snd]. rewrite andb_false_l.
        reflexivity.
      * intros h' Hin. apply Hfresh. by right.
Qed.

End LoopFacts.

(** ** [fetch_crtsh], the candidates and [main] *)

Section MainFacts.
Context {W : World}.
Hypothesis configured : resolver_new = Ok tt.

Lemma fetch_crtsh_run domain :
  fetch_crtsh domain =
    (Ok (ct_names domain), [EvGet crtsh_url (crtsh_params domain)]).
Proof.
  unfold fetch_crtsh, ct_names, crtsh_params, call.
  destruct (crtsh_body _ _ _) as [subs [[v|]|e]]; reflexivity.
Qed.

Lemma load_wordlist_run path :
  load_wordlist path =
    (match open_read path with
     | Ok lines => Ok (wordlist_lines lines)
     | Raise e => Raise e
     end, [EvOpen path "r"]).
Proof.
  unfold load_wordlist, call. destruct (open_read path); reflexivity.
Qed.

(** The candidate collection makes no DNS query and writes nothing. *)
Lemma collect_candidates_trace args domain ev :
  ev ∈ trace (collect_candidates args domain) ->
  (exists path, ev = EvOpen path "r") \/ ev = EvGet crtsh_url (crtsh_params domain).
Proof.
  unfold collect_candidates.
  destruct (given (Args.wordlist args)) as [path|].
  - rewrite load_wordlist_run. destruct (open_read path) as [lines|e].
    + rewrite bind_ok. cbv beta. destruct (Args.no_crt args).
      * cbn [ret outcome trace fst snd app]. rewrite list_elem_of_singleton.
        intros ->. left. by exists path.
      * rewrite fetch_crtsh_run, bind_ok. cbn [ret outcome trace fst snd app].
        rewrite !elem_of_cons, elem_of_nil. intros [->|[->|[]]]; eauto.
    + rewrite bind_raise. cbn [trace snd]. rewrite list_elem_of_singleton.
      intros ->. left. by exists path.
  - rewrite bind_ret. destruct (Args.no_crt args).
    + cbn [ret trace snd]. by rewrite elem_of_nil.
    + rewrite fetch_crtsh_run, bind_ok. cbn [ret outcome trace fst snd app].
      rewrite list_elem_of_singleton. intros ->. by right.
Qed.

Lemma sorted_NoDup (candidates : gset string) : NoDup (sorted candidates).
Proof.
  unfold sorted. rewrite merge_sort_Permutation. apply NoDup_elements.
Qed.

Lemma elem_of_sorted (candidates : gset string) h :
  h ∈ sorted candidates <-> h ∈ candidates.
Proof.
  unfold sorted. rewrite merge_sort_Permutation. apply elem_of_elements.
Qed.

Lemma sorted_StronglySorted (candidates : gset string) :
  StronglySorted String.le (sorted candidates).
Proof. apply StronglySorted_merge_sort; apply _. Qed.

(** A run of [main] whose candidate collection raises. *)
Lemma main_run_raise args e t :
  collect_candidates args (normalize_domain (Args.domain args)) = (Raise e, t) ->
  main args =
    (Raise e, (root_events (normalize_domain (Args.domain args)) ++ t)%list).
Proof.
  intros Hc. unfold main. rewrite (root_records_run configured), bind_ok.
  cbv beta. rewrite Hc, bind_raise. reflexivity.
Qed.

(** A run of [main] whose candidate collection returns. *)
Lemma main_run args candidates t :
  let domain := normalize_domain (Args.domain args) in
  let final := final_results (Args.probe args) domain candidates in
  collect_candidates args domain = (Ok candidates, t) ->
  main args =
    (match outcome (write_json args final) with
     | Ok _ => Ok {| exit_code := 0; results := final |}
     | Raise e => Raise e
     end,
     (root_events domain ++ t
      ++ concat (map (round_events (Args.probe args)) (sorted candidates))
      ++ trace (write_json args final))%list).
Proof.
  intros domain final Hc. unfold main. fold domain.
  rewrite (root_records_run configured), bind_ok. cbv beta.
  rewrite Hc, bind_ok. cbv beta.
  erewrite (resolve_candidates_run configured _ _ _ []);
    [|reflexivity|apply sorted_NoDup|intros h _; apply not_elem_of_nil].
  rewrite bind_ok. cbv beta. fold (root_of domain).
  change (Dict.set "subdomains" _ _) with final.
  destruct (write_json args final) as [[[]|e] tw].
  - rewrite bind_ok. cbn [ret outcome trace fst snd]. rewrite app_nil_r.
    reflexivity.
  - rewrite bind_raise. reflexivity.
Qed.

End MainFacts.

Section MainReturns.
Context {W : World}.

(** Without a resolver, [main] stops at its first query. *)
Lemma main_unconfigured args e :
  resolver_new = Raise e -> main args = (Raise e, []).
Proof.
  intros Hnew. unfold main, root_records, dns_query. by rewrite Hnew.
Qed.

(** A run of [main] that returned had a resolver, its candidate
    collection has returned, and [results] is as [final_results] says. *)
Lemma main_returns args run :
  outcome (main args) = Ok run ->
  resolver_new = Ok tt
  /\ exists candidates,
       outcome (collect_candidates args (normalize_domain (Args.domain args)))
         = Ok candidates
       /\ results run =
            final_results (Args.probe args)
              (normalize_domain (Args.domain args)) candidates
       /\ exit_code run = 0.
Proof.
  intros Hrun.
  destruct resolver_new as [[]|e] eqn:Hnew;
    [|by rewrite (main_unconfigured _ _ Hnew) in Hrun].
  split; [reflexivity|].
  destruct (collect_candidates args (normalize_domain (Args.domain args)))
    as [[candidates|e] t] eqn:Hc.
  - exists candidates. split; [reflexivity|].
    rewrite (main_run Hnew _ _ _ Hc) in Hrun. cbn [outcome fst] in Hrun.
    destruct (write_json args _) as [[[]|e] tw]; cbn [outcome fst] in Hrun;
      [|discriminate].
    injection Hrun as <-. split; reflexivity.
  - rewrite (main_run_raise Hnew _ _ _ Hc) in Hrun. discriminate.
Qed.

(** [main] returns when there is a resolver and the files that the
    arguments name can be opened. *)
Lemma main_returns_when args :
  resolver_new = Ok tt ->
  (forall path, given (Args.wordlist args) = Some path ->
     exists lines, open_read path = Ok lines) ->
  (forall path, given (Args.json_out args) = Some path ->
     open_write path = Ok tt) ->
  exists run, outcome (main args) = Ok run.
Proof.
  intros Hnew Hread Hwrite.
  assert (Hc : exists candidates t,
            collect_candidates args (normalize_domain (Args.domain args))
            = (Ok candidates, t)).
  { unfold collect_candidates.
    destruct (given (Args.wordlist args)) as [path|].
    - destruct (Hread path eq_refl) as [lines Hlines].
      rewrite load_wordlist_run, Hlines, bind_ok. cbv beta.
      destruct (Args.no_crt args); [by eexists _, _|].
      rewrite fetch_crtsh_run, bind_ok. by eexists _, _.
    - rewrite bind_ret. destruct (Args.no_crt args); [by eexists _, _|].
      rewrite fetch_crtsh_run, bind_ok. by eexists _, _. }
  destruct Hc as (candidates & t & Hc). rewrite (main_run Hnew _ _ _ Hc).
  cbn [outcome fst]. unfold write_json.
  destruct (given (Args.json_out args)) as [path|]; [|by eexists].
  rewrite (Hwrite path eq_refl). by eexists.
Qed.

End MainReturns.

(** ** Strings *)

Local Arguments String.append !_ _ / : simpl nomatch.

Section StringFacts.
Import PyStr.

Lemma app_empty_r (s : string) : s ++ "" = s.
Proof. induction s; simpl; congruence. Qed.

Lemma app_assoc_str (a b c : string) : (a ++ b) ++ c = a ++ (b ++ c).
Proof. induction a; simpl; congruence. Qed.

Lemma length_app_str (a b : string) :
  String.length (a ++ b) = (String.length a + String.length b)%nat.
Proof. induction a; simpl; congruence. Qed.

Lemma lstrip_by_app p w x :
  all_chars p w = true -> lstrip_by p (w ++ x) = lstrip_by p x.
Proof.
  induction w as [|c w IH]; simpl; [done|].
  intros [-> Hw]%andb_prop. auto.
Qed.

Lemma rstrip_by_all p w : all_chars p w = true -> rstrip_by p w = "".
Proof.
  induction w as [|c w IH]; simpl; [done|].
  intros [-> Hw]%andb_prop. by rewrite IH.
Qed.

Lemma rstrip_by_app p x w :
  all_chars p w = true -> rstrip_by p (x ++ w) = rstrip_by p x.
Proof.
  intros Hw. induction x as [|c x IH]; simpl.
  - by apply rstrip_by_all.
  - by rewrite IH.
Qed.

(** What [lstrip] removes is a prefix of stripped characters. *)
Lemma lstrip_by_split p x :
  exists w, all_chars p w = true /\ x = w ++ lstrip_by p x.
Proof.
  induction x as [|c x (w & Hw & IH)]; simpl.
  - by exists "".
  - destruct (p c) eqn:Hc.
    + exists (String c w). simpl. rewrite Hc, Hw. split; [done|]. congruence.
    + by exists "".
Qed.

(** What [rstrip] removes is a suffix of stripped characters. *)
Lemma rstrip_by_split p x :
  exists w, all_chars p w = true /\ x = rstrip_by p x ++ w.
Proof.
  induction x as [|c x (w & Hw & IH)]; simpl.
  - by exists "".
  - destruct (rstrip_by p x) as [|c' r] eqn:Hr.
    + destruct (p c) eqn:Hc.
      * exists (String c w). simpl in *. rewrite Hc, Hw. split; [done|].
        congruence.
      * exists w. simpl in *. split; [done|]. congruence.
    + exists w. split; [done|]. simpl in *. congruence.
Qed.

(** A string that [strip] leaves alone is left alone by both halves. *)
Lemma strip_fixed x :
  strip x = x ->
  lstrip_by is_space x = x /\ rstrip_by is_space x = x.
Proof.
  unfold strip. intros Hx.
  destruct (lstrip_by_split is_space x) as (w1 & _ & H1).
  destruct (rstrip_by_split is_space (lstrip_by is_space x)) as (w2 & _ & H2).
  rewrite Hx in H2.
  assert (Hlen : String.length x
                 = (String.length w1 + (String.length x + String.length w2))%nat).
  { rewrite H1 at 1. rewrite length_app_str. rewrite H2 at 1.
    by rewrite length_app_str. }
  assert (w1 = "") as -> by (destruct w1; [done|simpl in Hlen; lia]).
  simpl in H1. rewrite <- H1 in *. done.
Qed.

(** A string that does not start with a stripped character. *)
Lemma lstrip_by_fixed_app p x y :
  x <> "" -> lstrip_by p x = x -> lstrip_by p (x ++ y) = x ++ y.
Proof.
  destruct x as [|c x]; [done|]. simpl. intros _.
  destruct (p c) eqn:Hc; [|done].
  intros Hx. exfalso.
  destruct (lstrip_by_split p x) as (w & _ & Hw).
  apply (f_equal String.length) in Hx. rewrite Hw in Hx at 2.
  simpl in Hx. rewrite length_app_str in Hx. lia.
Qed.

(** A string whose stripped form is not empty keeps what precedes it. *)
Lemma rstrip_by_app_r p x y :
  rstrip_by p y <> "" -> rstrip_by p (x ++ y) = x ++ rstrip_by p y.
Proof.
  intros Hy. induction x as [|c x IH]; simpl; [done|].
  rewrite IH. destruct (x ++ rstrip_by p y) eqn:Hxy; [|done].
  destruct x; simpl in Hxy; [done|discriminate].
Qed.

Lemma lower_app a b : lower (a ++ b) = lower a ++ lower b.
Proof. induction a; simpl; congruence. Qed.

Lemma code_ascii_of_N n : (n < 256)%N -> code (ascii_of_N n) = n.
Proof. intros Hn. unfold code. by apply N_ascii_embedding. Qed.

Lemma code_bound c : (code c < 256)%N.
Proof. apply N_ascii_bounded. Qed.

(** [lower] acts on letters only. *)
Lemma lower_char_other c : is_upper c = false -> lower_char c = c.
Proof. unfold lower_char. by intros ->. Qed.

Lemma lower_char_space c : is_space (lower_char c) = is_space c.
Proof.
  unfold lower_char. destruct (is_upper c) eqn:Hu; [|done].
  unfold is_upper, is_space in *. pose proof (code_bound c) as Hb.
  rewrite code_ascii_of_N by (clear -Hu Hb; lia).
  clear -Hu Hb. lia.
Qed.

Lemma lower_char_dot c : is_dot (lower_char c) = is_dot c.
Proof.
  unfold lower_char. destruct (is_upper c) eqn:Hu; [|done].
  unfold is_upper, is_dot in *. pose proof (code_bound c) as Hb.
  rewrite code_ascii_of_N by (clear -Hu Hb; lia).
  clear -Hu Hb. lia.
Qed.

Lemma lower_char_idemp c : lower_char (lower_char c) = lower_char c.
Proof.
  destruct (is_upper c) eqn:Hu; [|by rewrite !(lower_char_other c Hu)].
  apply lower_char_other. unfold lower_char. rewrite Hu.
  unfold is_upper in *. pose proof (code_bound c) as Hb.
  rewrite code_ascii_of_N by (clear -Hu Hb; lia).
  clear -Hu Hb. lia.
Qed.

Lemma lower_idemp s : lower (lower s) = lower s.
Proof. induction s; simpl; [done|]. by rewrite lower_char_idemp, IHs. Qed.

Lemma lower_all_dots s : all_chars is_dot s = true -> lower s = s.
Proof.
  induction s as [|c s IH]; simpl; [done|].
  intros [Hc Hs]%andb_prop. rewrite IH by done. f_equal.
  apply lower_char_other. unfold is_dot, is_upper in *. clear -Hc. lia.
Qed.

Lemma lstrip_lower s :
  lstrip_by is_space (lower s) = lower (lstrip_by is_space s).
Proof.
  induction s as [|c s IH]; simpl; [done|].
  rewrite lower_char_space. by destruct (is_space c).
Qed.

Lemma rstrip_lower p s :
  (forall c, p (lower_char c) = p c) ->
  rstrip_by p (lower s) = lower (rstrip_by p s).
Proof.
  intros Hp. induction s as [|c s IH]; simpl; [done|].
  rewrite IH, Hp. destruct (rstrip_by p s); simpl; [|done].
  by destruct (p c).
Qed.

(** Lower-casing and stripping commute. *)
Lemma strip_lower s : strip (lower s) = lower (strip s).
Proof.
  unfold strip. rewrite lstrip_lower.
  apply rstrip_lower, lower_char_space.
Qed.

End StringFacts.

(** ** The report *)

Section ReportFacts.
Context {W : World}.

Lemma has_address_live host : has_address (records host) <-> live host = true.
Proof.
  unfold has_address, live, records. split.
  - intros (k & x & l & Hk & Hget).
    rewrite !elem_of_cons, elem_of_nil in Hk.
    destruct Hk as [->|[->|[->|[]]]]; simpl in Hget; injection Hget as ->;
      simpl; rewrite ?orb_true_r; reflexivity.
  - intros Hl.
    destruct (answers host "A") as [|x l] eqn:Ha.
    + destruct (answers host "AAAA") as [|x l] eqn:Hb.
      * destruct (answers host "CNAME") as [|x l] eqn:Hc; [discriminate|].
        exists "CNAME", x, l. split; [|reflexivity].
        rewrite !elem_of_cons. auto.
      * exists "AAAA", x, l. split; [|reflexivity].
        rewrite !elem_of_cons. auto.
    + exists "A", x, l. split; [|reflexivity].
      rewrite !elem_of_cons. auto.
Qed.

Lemma subdomains_final probe domain candidates run :
  results run = final_results probe domain candidates ->
  subdomains run = entries_of probe (sorted candidates).
Proof. unfold subdomains. by intros ->. Qed.

Lemma StronglySorted_filter {A} (R : relation A) (P : A -> Prop)
    `{forall x, Decision (P x)} (l : list A) :
  StronglySorted R l -> StronglySorted R (filter P l).
Proof.
  induction 1 as [|x l Hs IH Hall]; [constructor|].
  rewrite filter_cons. case_decide; [|done].
  constructor; [done|].
  apply Forall_forall. intros y [_ Hy]%list_elem_of_filter.
  rewrite Forall_forall in Hall. auto.
Qed.

(** C1: a candidate host is a key of [subdomains] if and only if the
    record set that [resolve_host] returned for it has a non-empty list
    for A, AAAA or CNAME; the other candidates are left out and the run
    goes on. *)
Theorem subdomain_iff_address_record args run candidates host :
  outcome (main args) = Ok run ->
  outcome (collect_candidates args (normalize_domain (Args.domain args)))
    = Ok candidates ->
  host ∈ candidates ->
  exists rec,
    outcome (resolve_host host) = Ok rec
    /\ (host ∈ Dict.keys (subdomains run) <-> has_address rec).
Proof.
  intros Hrun Hc Hin.
  destruct (main_returns _ _ Hrun) as (Hnew & candidates' & Hc' & Hres & _).
  rewrite Hc in Hc'. injection Hc' as <-.
  exists (records host). split; [by rewrite (resolve_host_run Hnew)|].
  rewrite (subdomains_final _ _ _ _ Hres), entries_of_keys.
  rewrite list_elem_of_filter, elem_of_sorted, has_address_live.
  rewrite Is_true_true. tauto.
Qed.

(** The order of the loop does not depend on the order in which the set
    of candidates is enumerated. *)
Lemma sorted_any_order (candidates : gset string) (hosts : list string) :
  hosts ≡ₚ elements candidates ->
  merge_sort String.le hosts = sorted candidates.
Proof.
  intros Hperm. unfold sorted.
  apply (Sorted_unique String.le); [apply Sorted_merge_sort, _..|].
  by rewrite !merge_sort_Permutation.
Qed.

(** C6: the keys of [subdomains] are in ascending order of hostname, each
    once: in the report of a run, and after the loop over any set of
    candidates, in whatever order the set is enumerated. *)
Theorem subdomains_sorted :
  (forall args run,
     outcome (main args) = Ok run ->
     StronglySorted String.le (Dict.keys (subdomains run))
     /\ NoDup (Dict.keys (subdomains run)))
  /\ (forall probe domain (candidates : gset string) hosts,
        resolver_new = Ok tt ->
        hosts ≡ₚ elements candidates ->
        exists results subs,
          outcome (resolve_candidates probe (merge_sort String.le hosts)
                     (initial_results domain)) = Ok results
          /\ Dict.get "subdomains" results = Some (VDict subs)
          /\ StronglySorted String.le (Dict.keys subs)
          /\ NoDup (Dict.keys subs)).
Proof.
  assert (Hkeys : forall probe (candidates : gset string),
            StronglySorted String.le
              (Dict.keys (entries_of probe (sorted candidates)))
            /\ NoDup (Dict.keys (entries_of probe (sorted candidates)))).
  { intros probe candidates. rewrite entries_of_keys. split.
    - apply StronglySorted_filter, sorted_StronglySorted.
    - apply NoDup_filter, sorted_NoDup. }
  split.
  - intros args run Hrun.
    destruct (main_returns _ _ Hrun) as (_ & candidates & _ & Hres & _).
    rewrite (subdomains_final _ _ _ _ Hres). apply Hkeys.
  - intros probe domain candidates hosts Hnew Hperm.
    rewrite (sorted_any_order _ _ Hperm).
    erewrite (resolve_candidates_run Hnew _ _ _ []);
      [|reflexivity|apply sorted_NoDup|intros h _; apply not_elem_of_nil].
    eexists _, _. split; [reflexivity|]. split; [reflexivity|]. apply Hkeys.
Qed.

End ReportFacts.

(** C1 on the run of [Stub.args], for the candidate www.example.com. *)
Lemma subdomain_iff_address_record_witness :
  exists run rec,
    outcome (main (W := Stub.world) Stub.args) = Ok run
    /\ outcome (collect_candidates (W := Stub.world) Stub.args "example.com")
       = Ok Stub.candidates
    /\ "www.example.com" ∈ Stub.candidates
    /\ outcome (resolve_host (W := Stub.world) "www.example.com") = Ok rec
    /\ ("www.example.com" ∈ Dict.keys (subdomains run) <-> has_address rec).
Proof.
  assert (Hrun : exists run,
            outcome (main (W := Stub.world) Stub.args) = Ok run)
    by (eexists; vm_compute; reflexivity).
  destruct Hrun as [run Hrun].
  assert (Hc : outcome (collect_candidates (W := Stub.world) Stub.args
                          (normalize_domain (Args.domain Stub.args)))
               = Ok Stub.candidates)
    by (vm_compute; reflexivity).
  assert (Hin : "www.example.com" ∈ Stub.candidates)
    by (unfold Stub.candidates; set_solver).
  destruct (subdomain_iff_address_record (W := Stub.world) Stub.args run
              Stub.candidates "www.example.com" Hrun Hc Hin)
    as (rec & Hrec & Hiff).
  exists run, rec. repeat split; try assumption; apply Hiff.
Defined.

(** C6 on the run of [Stub.args]. *)
Lemma subdomains_sorted_witness :
  exists run,
    outcome (main (W := Stub.world) Stub.args) = Ok run
    /\ StronglySorted String.le (Dict.keys (subdomains run))
    /\ NoDup (Dict.keys (subdomains run)).
Proof.
  eexists. split; [vm_compute; reflexivity|].
  apply (proj1 (subdomains_sorted (W := Stub.world)) Stub.args).
  vm_compute. reflexivity.
Defined.

(** ** The traces of [main] *)

Section TraceFacts.
Context {W : World}.

Lemma round_events_resolve probe hosts name rtype :
  EvResolve name rtype ∈ concat (map (round_events probe) hosts) ->
  name ∈ hosts /\ rtype ∈ ["A"; "AAAA"; "CNAME"; "TXT"].
Proof.
  induction hosts as [|h hosts IH]; cbn [concat map].
  - by rewrite elem_of_nil.
  - rewrite elem_of_app. intros [Hin|Hin].
    + unfold round_events in Hin. rewrite elem_of_app in Hin.
      destruct Hin as [Hin|Hin].
      * rewrite !elem_of_cons, elem_of_nil in Hin.
        destruct Hin as [Heq|[Heq|[Heq|[Heq|[]]]]]; injection Heq as -> ->;
          (split; [by left|]); rewrite !elem_of_cons; auto.
      * destruct (live h && probe);
          rewrite ?elem_of_cons, elem_of_nil in Hin;
          [destruct Hin as [Heq|[Heq|[]]]; discriminate Heq|destruct Hin].
    + destruct (IH Hin). split; [by right|done].
Qed.

Lemma round_events_kinds probe hosts ev :
  ev ∈ concat (map (round_events probe) hosts) ->
  (exists name rtype, ev = EvResolve name rtype) \/ (exists target, ev = EvHead target).
Proof.
  induction hosts as [|h hosts IH]; cbn [concat map].
  - by rewrite elem_of_nil.
  - rewrite elem_of_app. intros [Hin|Hin]; [|auto].
    unfold round_events in Hin. rewrite elem_of_app in Hin.
    destruct Hin as [Hin|Hin].
    + rewrite !elem_of_cons, elem_of_nil in Hin.
      destruct Hin as [->|[->|[->|[->|[]]]]]; left; eauto.
    + destruct (live h && probe);
        rewrite ?elem_of_cons, elem_of_nil in Hin;
        [destruct Hin as [->|[->|[]]]; right; eauto|destruct Hin].
Qed.

Lemma round_events_queries probe hosts host rtype :
  host ∈ hosts -> rtype ∈ ["A"; "AAAA"; "CNAME"; "TXT"] ->
  EvResolve host rtype ∈ concat (map (round_events probe) hosts).
Proof.
  intros Hh Hr. induction hosts as [|h hosts IH]; cbn [concat map].
  - by apply elem_of_nil in Hh.
  - rewrite elem_of_app. apply elem_of_cons in Hh as [->|Hh]; [left|auto].
    unfold round_events. rewrite elem_of_app. left.
    rewrite !elem_of_cons, elem_of_nil in Hr. rewrite !elem_of_cons.
    destruct Hr as [->|[->|[->|[->|[]]]]]; auto.
Qed.

Lemma write_json_trace args final ev :
  ev ∈ trace (write_json args final) ->
  exists path, given (Args.json_out args) = Some path
    /\ (ev = EvOpen path "w" \/ ev = EvDump path (VDict final)).
Proof.
  unfold write_json. destruct (given (Args.json_out args)) as [path|].
  - unfold call. destruct (open_write path) as [[]|e].
    + rewrite bind_ok. cbn [outcome trace fst snd app].
      rewrite !elem_of_cons, elem_of_nil. intros [->|[->|[]]]; eauto.
    + rewrite bind_raise. cbn [trace snd]. rewrite list_elem_of_singleton.
      intros ->. eauto.
  - cbn [ret trace snd]. by rewrite elem_of_nil.
Qed.

(** The external calls of a run of [main], by the part of [main] that
    makes them. *)
Lemma main_trace args ev :
  let domain := normalize_domain (Args.domain args) in
  ev ∈ trace (main args) ->
  ev ∈ root_events domain
  \/ ev ∈ trace (collect_candidates args domain)
  \/ exists candidates,
       outcome (collect_candidates args domain) = Ok candidates
       /\ (ev ∈ concat (map (round_events (Args.probe args)) (sorted candidates))
           \/ ev ∈ trace (write_json args
                           (final_results (Args.probe args) domain candidates))).
Proof.
  intros domain. subst domain.
  destruct resolver_new as [[]|e] eqn:Hnew;
    [|rewrite (main_unconfigured _ _ Hnew); cbn [trace snd];
      by rewrite elem_of_nil].
  destruct (collect_candidates args (normalize_domain (Args.domain args)))
    as [[candidates|e] t] eqn:Hc.
  - rewrite (main_run Hnew _ _ _ Hc). cbn [trace snd outcome fst].
    rewrite !elem_of_app. intros [?|[?|[?|?]]]; eauto 6.
  - rewrite (main_run_raise Hnew _ _ _ Hc). cbn [trace snd].
    rewrite elem_of_app. intros [?|?]; eauto.
Qed.

End TraceFacts.

(** ** DNS queries *)

Section QueryFacts.
Context {W : World}.

(** C7, as amended: once the resolver object has been built (line 21), a
    query that fails gives the empty list and raises nothing; the other
    queries of the same host are made and answered on their own, and every
    candidate of the run gets its queries. *)
Theorem failed_query_is_empty name rtype e :
  resolver_new = Ok tt ->
  resolver_resolve name rtype = Raise e ->
  dns_query name rtype = (Ok [], [EvResolve name rtype])
  /\ (forall name' rtype', exists out, outcome (dns_query name' rtype') = Ok out)
  /\ (exists a aaaa cname txt,
        outcome (dns_query name "A") = Ok a
        /\ outcome (dns_query name "AAAA") = Ok aaaa
        /\ outcome (dns_query name "CNAME") = Ok cname
        /\ outcome (dns_query name "TXT") = Ok txt
        /\ resolve_host name =
             (Ok [("A", a); ("AAAA", aaaa); ("CNAME", cname); ("TXT", txt)],
              [EvResolve name "A"; EvResolve name "AAAA";
               EvResolve name "CNAME"; EvResolve name "TXT"]))
  /\ (forall args candidates host rt,
        outcome (collect_candidates args (normalize_domain (Args.domain args)))
          = Ok candidates ->
        host ∈ candidates -> rt ∈ ["A"; "AAAA"; "CNAME"; "TXT"] ->
        EvResolve host rt ∈ trace (main args)).
Proof.
  intros Hnew Hfail. repeat split.
  - rewrite (dns_query_run Hnew). unfold answers. by rewrite Hfail.
  - intros name' rtype'. rewrite (dns_query_run Hnew). by eexists.
  - exists (answers name "A"), (answers name "AAAA"), (answers name "CNAME"),
      (answers name "TXT").
    rewrite !(dns_query_run Hnew), (resolve_host_run Hnew). by repeat split.
  - intros args candidates host rt Hc Hin Hrt.
    destruct (collect_candidates args _) as [o t] eqn:Hcc.
    cbn [outcome fst] in Hc. subst o.
    rewrite (main_run Hnew _ _ _ Hcc). cbn [trace snd]. rewrite !elem_of_app.
    right. right. left. apply round_events_queries; [|done].
    by apply elem_of_sorted.
Qed.

(** C2, as amended: with a resolver at hand, [resolve_host] returns the
    keys A, AAAA, CNAME and TXT and makes these four queries; the root
    record set has NS, MX, SOA, TXT, A and AAAA; a query for NS, MX or SOA
    is a query for the root domain. *)
Theorem resolve_host_record_types args host name rtype :
  resolver_new = Ok tt ->
  (exists a aaaa cname txt,
     resolve_host host =
       (Ok [("A", a); ("AAAA", aaaa); ("CNAME", cname); ("TXT", txt)],
        [EvResolve host "A"; EvResolve host "AAAA"; EvResolve host "CNAME";
         EvResolve host "TXT"]))
  /\ (exists ns mx soa txt a aaaa,
        root_records host =
          (Ok [("NS", ns); ("MX", mx); ("SOA", soa); ("TXT", txt); ("A", a);
               ("AAAA", aaaa)],
           [EvResolve host "NS"; EvResolve host "MX"; EvResolve host "SOA";
            EvResolve host "TXT"; EvResolve host "A"; EvResolve host "AAAA"]))
  /\ (EvResolve name rtype ∈ trace (main args) ->
      rtype ∈ ["NS"; "MX"; "SOA"] ->
      name = normalize_domain (Args.domain args)).
Proof.
  intros Hnew. split; [|split].
  - rewrite (resolve_host_run Hnew). by eexists _, _, _, _.
  - rewrite (root_records_run Hnew). by eexists _, _, _, _, _, _.
  - intros Hev Hrt. apply main_trace in Hev.
    destruct Hev as [Hev|[Hev|(candidates & _ & [Hev|Hev])]].
    + unfold root_events in Hev. rewrite !elem_of_cons, elem_of_nil in Hev.
      destruct Hev as [H|[H|[H|[H|[H|[H|[]]]]]]]; by injection H.
    + apply collect_candidates_trace in Hev as [[path Hev]|Hev]; discriminate.
    + apply round_events_resolve in Hev as [_ Hev].
      rewrite !elem_of_cons, elem_of_nil in Hev.
      rewrite !elem_of_cons, elem_of_nil in Hrt.
      destruct Hrt as [->|[->|[->|[]]]];
        destruct Hev as [H|[H|[H|[H|[]]]]]; discriminate.
    + apply write_json_trace in Hev as (path & _ & [Hev|Hev]); discriminate.
Qed.

End QueryFacts.

(** C7, as amended, on the query for the A records of mail.example.com,
    which fails in the world of [Stub]. *)
Lemma failed_query_is_empty_witness :
  resolver_new (World := Stub.world) = Ok tt
  /\ resolver_resolve (World := Stub.world) "mail.example.com" "A"
    = Raise (Exception "NXDOMAIN")
  /\ dns_query (W := Stub.world) "mail.example.com" "A"
     = (Ok [], [EvResolve "mail.example.com" "A"]).
Proof.
  split; [reflexivity|]. split; [reflexivity|].
  apply (failed_query_is_empty (W := Stub.world) "mail.example.com" "A"
           (Exception "NXDOMAIN")); reflexivity.
Defined.

(** C7, as stated, fails: [dns.resolver.Resolver()] is called at line 21,
    before the [try] of lines 23-30. Where no resolver can be built, the
    query for the A records of mail.example.com does not give the empty
    list: [dns_query] raises, no query is sent, and [resolve_host] raises
    with it, so the other record types of the host are not asked for. *)
Lemma dns_query_raises_without_resolver :
  resolver_new (World := Cases.no_resolver_world)
  = Raise (Exception "NoResolverConfiguration")
  /\ dns_query (W := Cases.no_resolver_world) "mail.example.com" "A"
     = (Raise (Exception "NoResolverConfiguration"), [])
  /\ outcome (dns_query (W := Cases.no_resolver_world) "mail.example.com" "A")
     <> Ok []
  /\ resolve_host (W := Cases.no_resolver_world) "mail.example.com"
     = (Raise (Exception "NoResolverConfiguration"), []).
Proof.
  split; [reflexivity|]. split; [reflexivity|].
  split; [discriminate|reflexivity].
Qed.

(** C2, as amended, on the NS query of the run of [Stub.args]. *)
Lemma resolve_host_record_types_witness :
  resolver_new (World := Stub.world) = Ok tt
  /\ EvResolve "example.com" "NS" ∈ trace (main (W := Stub.world) Stub.args)
  /\ "NS" ∈ ["NS"; "MX"; "SOA"]
  /\ "example.com" = normalize_domain (Args.domain Stub.args).
Proof.
  assert (Hev : EvResolve "example.com" "NS"
                  ∈ trace (main (W := Stub.world) Stub.args))
    by (vm_compute; left).
  assert (Hrt : "NS" ∈ ["NS"; "MX"; "SOA"]) by left.
  split; [reflexivity|]. split; [exact Hev|]. split; [exact Hrt|].
  exact (proj2 (proj2 (resolve_host_record_types (W := Stub.world) Stub.args
                         "www.example.com" "example.com" "NS" eq_refl))
           Hev Hrt).
Defined.

(** C2, as stated, fails: the record set of a candidate has the key TXT,
    and the run queries TXT for a host that is not the root domain. *)
Lemma resolve_host_has_txt :
  let rec := [("A", ["93.184.216.34"]); ("AAAA", []); ("CNAME", []);
              ("TXT", [])] in
  outcome (resolve_host (W := Stub.world) "www.example.com") = Ok rec
  /\ Dict.keys rec <> ["A"; "AAAA"; "CNAME"]
  /\ EvResolve "www.example.com" "TXT"
       ∈ trace (main (W := Stub.world) Stub.args)
  /\ "www.example.com" <> normalize_domain (Args.domain Stub.args).
Proof.
  repeat split; [discriminate| |discriminate].
  vm_compute. do 21 right. left.
Qed.

(** ** The HTTP probe *)

Section ProbeFacts.
Context {W : World}.

(** [str(n)] starts with a digit or with the minus sign. *)
Lemma of_int_head n :
  exists c s, PyStr.of_int n = String c s /\ c <> "E"%char.
Proof.
  unfold PyStr.of_int, NilZero.string_of_int.
  destruct (Z.to_int n) as [d|d].
  - unfold NilZero.string_of_uint.
    destruct d; simpl; eexists _, _; (split; [reflexivity|discriminate]).
  - eexists _, _. split; [reflexivity|discriminate].
Qed.

(** C9: the probe tries https and then http, whatever the first gives;
    each scheme gets the status code and final URL of its response, or the
    tag of the exception that its request raised; no string is both. *)
Theorem http_probe_results host :
  let result scheme :=
    match requests_head (scheme ++ "://" ++ host) with
    | Ok r => PyStr.of_int (status_code r) ++ " -> " ++ url r
    | Raise e => "ERR (" ++ exn_name e ++ ")"
    end in
  http_probe host =
    (Ok [("https", result "https"); ("http", result "http")],
     [EvHead ("https://" ++ host); EvHead ("http://" ++ host)])
  /\ forall code final e,
       PyStr.of_int code ++ " -> " ++ final <> "ERR (" ++ exn_name e ++ ")".
Proof.
  split.
  - apply http_probe_run.
  - intros code final e Heq.
    destruct (of_int_head code) as (c & s & Hs & Hc).
    rewrite Hs in Heq. simpl in Heq. congruence.
Qed.

End ProbeFacts.

(** ** The certificate-transparency fetch *)

Section FetchFacts.
Context {W : World}.

Lemma scan_rows_app domain before rest : forall subs,
  snd (scan_rows domain before subs) = Ok tt ->
  scan_rows domain (before ++ rest)%list subs =
    scan_rows domain rest (fst (scan_rows domain before subs)).
Proof.
  induction before as [|row before IH]; intros subs; simpl; [done|].
  destruct (PyVal.get row "name_value" (VStr "")) as [nv|e]; [|done].
  apply IH.
Qed.

Lemma scan_rows_raise domain row rest subs e :
  PyVal.get row "name_value" (VStr "") = Raise e ->
  scan_rows domain (row :: rest) subs = (subs, Raise e).
Proof. simpl. by intros ->. Qed.

(** C3, as amended: [fetch_crtsh] raises nothing.  It returns the empty set
    when the request raises, when the status is not 200, when the body is
    not JSON and when the parsed body cannot be iterated.  When a row
    raises, it returns the names of the rows before that row. *)
Theorem fetch_crtsh_never_raises domain :
  let response :=
    requests_get crtsh_url [("q", "%." ++ domain); ("output", "json")] in
  (exists subs,
     fetch_crtsh domain =
       (Ok subs,
        [EvGet crtsh_url [("q", "%." ++ domain); ("output", "json")]]))
  /\ (forall e, response = Raise e -> outcome (fetch_crtsh domain) = Ok ∅)
  /\ (forall r, response = Ok r -> status_code r <> 200 ->
        outcome (fetch_crtsh domain) = Ok ∅)
  /\ (forall r e, response = Ok r -> status_code r = 200 ->
        json r = Raise e -> outcome (fetch_crtsh domain) = Ok ∅)
  /\ (forall r data e, response = Ok r -> status_code r = 200 ->
        json r = Ok data -> PyVal.iter data = Raise e ->
        outcome (fetch_crtsh domain) = Ok ∅)
  /\ (forall r data before row after e,
        response = Ok r -> status_code r = 200 -> json r = Ok data ->
        PyVal.iter data = Ok (before ++ row :: after)%list ->
        snd (scan_rows domain before ∅) = Ok tt ->
        PyVal.get row "name_value" (VStr "") = Raise e ->
        outcome (fetch_crtsh domain) = Ok (fst (scan_rows domain before ∅))).
Proof.
  intros response. subst response. rewrite fetch_crtsh_run.
  unfold ct_names, crtsh_params, crtsh_body. cbn [outcome fst].
  split; [by eexists|].
  split; [by intros e ->|].
  split.
  { intros r -> Hs. apply Z.eqb_neq in Hs. by rewrite Hs. }
  split.
  { intros r e -> ->. by intros ->. }
  split.
  { intros r data e -> -> ->. by intros ->. }
  intros r data before row after e -> -> -> -> Hbefore Hrow. simpl.
  rewrite (scan_rows_app _ _ _ _ Hbefore), (scan_rows_raise _ _ _ _ _ Hrow).
  reflexivity.
Qed.

End FetchFacts.

(** C3, as amended, on a body whose second row is not an object. *)
Lemma fetch_crtsh_never_raises_witness :
  outcome (fetch_crtsh (W := Stub.ct_world (Stub.ok_json Stub.broken_rows))
             "example.com")
  = Ok (fst (scan_rows "example.com"
               [VDict [("name_value", VStr "*.dev.example.com")]] ∅)).
Proof.
  refine (proj2 (proj2 (proj2 (proj2 (proj2
            (fetch_crtsh_never_raises
               (W := Stub.ct_world (Stub.ok_json Stub.broken_rows))
               "example.com")))))
            {| status_code := 200; url := crtsh_url;
               json := Ok Stub.broken_rows |}
            Stub.broken_rows
            [VDict [("name_value", VStr "*.dev.example.com")]]
            (VInt 5) [] (Exception "AttributeError") _ _ _ _ _ _);
    reflexivity.
Defined.

(** C3, as stated, fails: when the second row of the body raises, the
    name of the first row is returned. *)
Lemma fetch_crtsh_keeps_partial :
  let W := Stub.ct_world (Stub.ok_json Stub.broken_rows) in
  snd (crtsh_body "example.com" (Stub.ok_json Stub.broken_rows) ∅)
  = Raise (Exception "AttributeError")
  /\ outcome (fetch_crtsh (W := W) "example.com") = Ok {[ "dev.example.com" ]}
  /\ outcome (fetch_crtsh (W := W) "example.com") <> Ok ∅.
Proof.
  intros W.
  assert (Hout : outcome (fetch_crtsh (W := W) "example.com")
                 = Ok {[ "dev.example.com" ]})
    by (vm_compute; reflexivity).
  split; [vm_compute; reflexivity|]. split; [exact Hout|].
  rewrite Hout. intros Heq.
  assert (Hempty : ({[ "dev.example.com" ]} : gset string) = ∅) by congruence.
  by apply non_empty_singleton_L in Hempty.
Qed.

(** C4: with a certificate name that has two wildcard labels, the set
    that [fetch_crtsh] returns has a name that starts with the wildcard
    marker. *)
Lemma fetch_crtsh_keeps_wildcard :
  let W := Stub.ct_world (Stub.ok_json Stub.wildcard_rows) in
  outcome (fetch_crtsh (W := W) "example.com") = Ok {[ "*.example.com" ]}
  /\ PyStr.startswith "*." "*.example.com" = true.
Proof. intros W. split; vm_compute; reflexivity. Qed.

(** C5: a word of the word list with upper-case letters gives a candidate
    with upper-case letters. *)
Lemma wordlist_keeps_case :
  let W := Stub.wordlist_world ["WWW" ++ String "010" ""] in
  outcome (collect_candidates (W := W) Stub.wordlist_args
             (normalize_domain (Args.domain Stub.wordlist_args)))
  = Ok {[ "WWW.example.com" ]}
  /\ PyStr.lower "WWW.example.com" <> "WWW.example.com".
Proof. intros W. split; [vm_compute; reflexivity|discriminate]. Qed.

(** ** The JSON document *)

Section JsonFacts.
Context {W : World}.

Lemma of_records_object rec :
  record_object (Dict.keys rec) (of_records rec).
Proof.
  exists (map (fun kv => (fst kv, VList (map VStr (snd kv)))) rec).
  split; [reflexivity|]. split.
  - unfold Dict.keys. rewrite map_map. reflexivity.
  - intros k x [[k' l] [[= -> ->] _]]%list_elem_of_fmap. by exists l.
Qed.

Lemma of_probe_object a b :
  probe_object (of_probe [("https", a); ("http", b)]).
Proof.
  eexists. split; [reflexivity|]. split; [reflexivity|].
  intros k x Hin. simpl in Hin. rewrite !elem_of_cons, elem_of_nil in Hin.
  destruct Hin as [[= _ ->]|[[= _ ->]|[]]]; by eexists.
Qed.

Lemma entry_of_object probe host : entry_object probe (entry_of probe host).
Proof.
  exists (of_records (records host)).
  split; [apply (of_records_object (records host))|].
  unfold entry_of. destruct probe; [|reflexivity].
  eexists. split; [apply of_probe_object|reflexivity].
Qed.

(** C8, as amended: the document that is written has the top-level keys
    [domain] (a string), [root] (record types to arrays of strings), [dns]
    (an empty object) and [subdomains] (hostnames to objects with a
    [records] field and, when the run probes, an [http] field), in this
    order and no other; a run that returns with JSON output requested
    has written [results]. *)
Theorem json_document_shape args :
  (forall path doc,
     EvDump path doc ∈ trace (main args) ->
     exists root subs,
       doc = VDict [("domain", VStr (normalize_domain (Args.domain args)));
                    ("root", root); ("dns", VDict []);
                    ("subdomains", VDict subs)]
       /\ record_object ["NS"; "MX"; "SOA"; "TXT"; "A"; "AAAA"] root
       /\ forall host entry,
            (host, entry) ∈ subs -> entry_object (Args.probe args) entry)
  /\ (forall run path,
        outcome (main args) = Ok run ->
        given (Args.json_out args) = Some path ->
        EvDump path (VDict (results run)) ∈ trace (main args)).
Proof.
  split.
  - intros path doc Hev. apply main_trace in Hev.
    destruct Hev as [Hev|[Hev|(candidates & _ & [Hev|Hev])]].
    + unfold root_events in Hev. rewrite !elem_of_cons, elem_of_nil in Hev.
      destruct Hev as [H|[H|[H|[H|[H|[H|[]]]]]]]; discriminate.
    + apply collect_candidates_trace in Hev as [[p Hev]|Hev]; discriminate.
    + apply round_events_kinds in Hev as [(n & r & Hev)|(u & Hev)];
        discriminate.
    + apply write_json_trace in Hev as (p & _ & [Hev|Hev]); [discriminate|].
      injection Hev as -> ->. unfold final_results.
      eexists _, _. split; [reflexivity|].
      split; [apply (of_records_object (root_of _))|].
      intros host entry Hin. unfold entries_of in Hin.
      apply list_elem_of_fmap in Hin as (h & [= -> ->] & _).
      apply entry_of_object.
  - intros run path Hrun Hpath.
    destruct (main_returns _ _ Hrun) as (Hnew & candidates & Hc & Hres & _).
    destruct (collect_candidates args _) as [o t] eqn:Hcc.
    cbn [outcome fst] in Hc. subst o.
    rewrite (main_run Hnew _ _ _ Hcc) in Hrun |- *. rewrite Hres.
    cbn [outcome fst trace snd] in Hrun |- *. rewrite !elem_of_app.
    do 3 right. revert Hrun. unfold write_json. rewrite Hpath. unfold call.
    destruct (open_write path) as [[]|e].
    + intros _. rewrite bind_ok. cbn [trace snd app].
      rewrite !elem_of_cons. auto.
    + rewrite bind_raise. discriminate.
Qed.

End JsonFacts.

(** C8, as amended, on the run of [Stub.args]. *)
Lemma json_document_shape_witness :
  exists run,
    outcome (main (W := Stub.world) Stub.args) = Ok run
    /\ given (Args.json_out Stub.args) = Some "out.json"
    /\ EvDump "out.json" (VDict (results run))
         ∈ trace (main (W := Stub.world) Stub.args).
Proof.
  assert (Hrun : exists run,
            outcome (main (W := Stub.world) Stub.args) = Ok run)
    by (eexists; vm_compute; reflexivity).
  destruct Hrun as [run Hrun]. exists run.
  assert (Hpath : given (Args.json_out Stub.args) = Some "out.json")
    by reflexivity.
  split; [exact Hrun|]. split; [exact Hpath|].
  exact (proj2 (json_document_shape (W := Stub.world) Stub.args)
           run "out.json" Hrun Hpath).
Defined.

(** C8, as stated, fails: the document has a fourth top-level key. *)
Lemma json_document_has_dns :
  exists items,
    EvDump "out.json" (VDict items) ∈ trace (main (W := Stub.world) Stub.args)
    /\ Dict.keys items = ["domain"; "root"; "dns"; "subdomains"]
    /\ "dns" ∉ ["domain"; "root"; "subdomains"].
Proof.
  eexists. split; [|split].
  - vm_compute. do 25 right. left.
  - reflexivity.
  - rewrite !elem_of_cons, elem_of_nil. intros [H|[H|[H|[]]]]; discriminate.
Qed.

(** ** The target domain *)

Section DomainFacts.
Context {W : World}.
Import PyStr.

Lemma rstrip_by_keep p q s :
  (forall c, q c = true -> p c = false) ->
  all_chars q s = true -> rstrip_by p s = s.
Proof.
  intros Hpq. induction s as [|c s IH]; simpl; [done|].
  intros [Hc Hs]%andb_prop. rewrite IH by done.
  destruct s; [|done]. by rewrite (Hpq c Hc).
Qed.

Lemma dot_not_space c : is_dot c = true -> is_space c = false.
Proof. unfold is_dot, is_space. lia. Qed.

(** [strip] on a name between white space, with dots after the name. *)
Lemma strip_variant name dots w1 w2 :
  strip name = name ->
  all_chars is_space w1 = true -> all_chars is_space w2 = true ->
  all_chars is_dot dots = true ->
  strip (w1 ++ name ++ dots ++ w2) = name ++ dots.
Proof.
  intros [Hl Hr]%strip_fixed H1 H2 Hd. unfold strip.
  rewrite lstrip_by_app by done.
  assert (Hdots : rstrip_by is_space dots = dots)
    by (eapply rstrip_by_keep; [apply dot_not_space|done]).
  destruct name as [|c name].
  - simpl. destruct dots as [|c dots].
    + simpl. rewrite <- (app_empty_r w2), lstrip_by_app by done. reflexivity.
    + simpl in Hd. apply andb_prop in Hd as [Hc Hd].
      simpl. rewrite (dot_not_space c Hc).
      change (String c (dots ++ w2)) with (String c dots ++ w2).
      rewrite rstrip_by_app by done. exact Hdots.
  - rewrite lstrip_by_fixed_app by done.
    rewrite <- app_assoc_str, rstrip_by_app by done.
    destruct dots as [|d dots].
    + by rewrite !app_empty_r.
    + rewrite rstrip_by_app_r; [by rewrite Hdots|]. by rewrite Hdots.
Qed.

Lemma normalize_variant name dots w1 w2 :
  strip name = name ->
  all_chars is_space w1 = true -> all_chars is_space w2 = true ->
  all_chars is_dot dots = true ->
  normalize_domain (w1 ++ name ++ dots ++ w2) = rstrip_dots (lower name).
Proof.
  intros Hn H1 H2 Hd. unfold normalize_domain.
  rewrite strip_variant, lower_app, (lower_all_dots dots) by done.
  unfold rstrip_dots. by rewrite rstrip_by_app.
Qed.

(** The case of the argument does not matter. *)
Lemma normalize_domain_case raw raw' :
  lower raw = lower raw' -> normalize_domain raw = normalize_domain raw'.
Proof.
  intros Hlow. unfold normalize_domain. by rewrite <- !strip_lower, Hlow.
Qed.

Lemma collect_candidates_returns args domain candidates :
  outcome (collect_candidates args domain) = Ok candidates ->
  exists base,
    candidates =
      add_words domain base ∅
      ∪ (if Args.no_crt args then ∅ else ct_names domain).
Proof.
  unfold collect_candidates.
  destruct (given (Args.wordlist args)) as [path|].
  - rewrite load_wordlist_run. destruct (open_read path) as [lines|e].
    + rewrite bind_ok. cbv beta. exists (wordlist_lines lines).
      destruct (Args.no_crt args).
      * cbn [ret outcome fst] in *. rewrite union_empty_r_L. congruence.
      * rewrite fetch_crtsh_run, bind_ok in *. cbn [ret outcome fst] in *.
        congruence.
    + rewrite bind_raise. discriminate.
  - rewrite bind_ret. exists DEFAULT_SUBS. destruct (Args.no_crt args).
    + cbn [ret outcome fst] in *. rewrite union_empty_r_L. congruence.
    + rewrite fetch_crtsh_run, bind_ok in *. cbn [ret outcome fst] in *.
      congruence.
Qed.

Lemma main_with_domain args raw :
  normalize_domain raw = normalize_domain (Args.domain args) ->
  main (with_domain args raw) = main args.
Proof.
  intros Hn. unfold main, collect_candidates, write_json. simpl.
  rewrite Hn. reflexivity.
Qed.

(** C10, as amended: the domain of the run is the argument, stripped,
    lower-cased and without its trailing dots, in this order: the root
    queries, the construction of the candidates, the
    certificate-transparency fetch and the [domain] field use it (the root
    queries come first, when there is a resolver); arguments that are the
    same name up to case, with dots right after it and white space around
    the whole, give the same run. *)
Theorem domain_normalized args :
  let domain :=
    PyStr.rstrip_dots (PyStr.lower (PyStr.strip (Args.domain args))) in
  (resolver_new = Ok tt ->
   exists rest, trace (main args) = (root_events domain ++ rest)%list)
  /\ (forall run,
        outcome (main args) = Ok run ->
        Dict.get "domain" (results run) = Some (VStr domain)
        /\ exists base,
             results run =
               final_results (Args.probe args) domain
                 (add_words domain base ∅
                  ∪ (if Args.no_crt args then ∅ else ct_names domain)))
  /\ (forall raw,
        PyStr.rstrip_dots (PyStr.lower (PyStr.strip raw)) = domain ->
        main (with_domain args raw) = main args)
  /\ (forall name name' w1 w2 w1' w2' dots dots',
        PyStr.strip name = name -> PyStr.strip name' = name' ->
        PyStr.lower name = PyStr.lower name' ->
        all_chars PyStr.is_space w1 = true ->
        all_chars PyStr.is_space w2 = true ->
        all_chars PyStr.is_space w1' = true ->
        all_chars PyStr.is_space w2' = true ->
        all_chars PyStr.is_dot dots = true ->
        all_chars PyStr.is_dot dots' = true ->
        main (with_domain args (w1 ++ name ++ dots ++ w2))
        = main (with_domain args (w1' ++ name' ++ dots' ++ w2'))).
Proof.
  intros domain. fold (normalize_domain (Args.domain args)) in domain.
  split; [|split; [|split]].
  - intros Hnew.
    destruct (collect_candidates args domain) as [[candidates|e] t] eqn:Hc.
    + rewrite (main_run Hnew _ _ _ Hc). by eexists.
    + rewrite (main_run_raise Hnew _ _ _ Hc). by eexists.
  - intros run Hrun.
    destruct (main_returns _ _ Hrun) as (_ & candidates & Hc & Hres & _).
    fold domain in Hc, Hres. rewrite Hres. split; [reflexivity|].
    destruct (collect_candidates_returns _ _ _ Hc) as [base ->]. by exists base.
  - intros raw Hraw. by apply main_with_domain.
  - intros name name' w1 w2 w1' w2' dots dots' Hn Hn' Hlow H1 H2 H1' H2' Hd Hd'.
    change (with_domain args (w1 ++ name ++ dots ++ w2))
      with (with_domain (with_domain args (w1' ++ name' ++ dots' ++ w2'))
              (w1 ++ name ++ dots ++ w2)).
    apply main_with_domain. cbn [with_domain Args.domain].
    rewrite !normalize_variant by done. by rewrite Hlow.
Qed.

End DomainFacts.

(** C10, as amended, on two spellings of example.com. *)
Lemma domain_normalized_witness :
  main (W := Stub.world) (with_domain Stub.args "example.com")
  = main (W := Stub.world) (with_domain Stub.args " Example.COM. ").
Proof.
  exact (proj2 (proj2 (proj2 (domain_normalized (W := Stub.world) Stub.args)))
           "example.com" "Example.COM" "" "" " " " " "" "."
           eq_refl eq_refl eq_refl eq_refl eq_refl eq_refl eq_refl eq_refl
           eq_refl).
Defined.

(** C10, as stated, fails: line 104 strips the white space before it
    removes the trailing dots, so a dot that follows white space uncovers
    white space that stays. The arguments "example.com ." and
    "example.com " differ in a trailing dot only; the first gives the
    domain "example.com " with its space, the second "example.com", and
    the root queries of the two runs are made for different names. *)
Lemma trailing_dot_after_space_kept :
  normalize_domain "example.com ." = "example.com "
  /\ normalize_domain "example.com " = "example.com"
  /\ normalize_domain "example.com ." <> normalize_domain "example.com "
  /\ (exists rest,
        trace (main (W := Stub.world) (with_domain Stub.args "example.com ."))
        = (root_events "example.com " ++ rest)%list)
  /\ (exists rest,
        trace (main (W := Stub.world) (with_domain Stub.args "example.com "))
        = (root_events "example.com" ++ rest)%list)
  /\ main (W := Stub.world) (with_domain Stub.args "example.com .")
     <> main (W := Stub.world) (with_domain Stub.args "example.com ").
Proof.
  split; [reflexivity|]. split; [reflexivity|]. split; [discriminate|].
  split; [eexists; vm_compute; reflexivity|].
  split; [eexists; vm_compute; reflexivity|].
  vm_compute. discriminate.
Qed.

(** ** What the sources of candidates do keep *)

Section SourceFacts.
Context {W : World}.
Import PyStr.

Lemma endswith_suffix suf s :
  endswith suf s = true -> exists p, s = p ++ suf.
Proof.
  induction s as [|c s IH]; cbn [endswith].
  - destruct (String.eqb_spec "" suf) as [<-|]; [|done]. by exists "".
  - destruct (String.eqb_spec (String c s) suf) as [<-|].
    + by exists "".
    + intros [p ->]%IH. by exists (String c p).
Qed.

Lemma lower_drop n s : lower (drop n s) = drop n (lower s).
Proof.
  revert s. induction n as [|n IH]; intros [|c s]; simpl; auto.
Qed.

Lemma cleaned_lower line : lower (cleaned line) = cleaned line.
Proof.
  unfold cleaned. destruct (startswith _ _).
  - by rewrite lower_drop, lower_idemp.
  - apply lower_idemp.
Qed.

Section Invariant.
Variable domain : string.
Variable P : string -> Prop.
Hypothesis kept :
  forall line,
    endswith ("." ++ lower domain) (cleaned line)
    || String.eqb (cleaned line) (lower domain) = true ->
    P (cleaned line).

Lemma add_name_inv (subs : gset string) line :
  (forall x, x ∈ subs -> P x) ->
  forall x, x ∈ add_name domain subs line -> P x.
Proof.
  intros Hsubs x. unfold add_name. fold (cleaned line).
  destruct (_ || _) eqn:Htest; [|by apply Hsubs].
  rewrite elem_of_union, elem_of_singleton. intros [?| ->]; auto.
Qed.

Lemma add_names_inv lines : forall subs : gset string,
  (forall x, x ∈ subs -> P x) ->
  forall x, x ∈ fold_left (add_name domain) lines subs -> P x.
Proof.
  induction lines as [|line lines IH]; intros subs Hsubs; simpl; [done|].
  apply IH. by apply add_name_inv.
Qed.

Lemma scan_rows_inv rows : forall subs : gset string,
  (forall x, x ∈ subs -> P x) ->
  forall x, x ∈ fst (scan_rows domain rows subs) -> P x.
Proof.
  induction rows as [|row rows IH]; intros subs Hsubs; simpl; [done|].
  destruct (PyVal.get row "name_value" (VStr "")) as [nv|e]; [|done].
  apply IH. by apply add_names_inv.
Qed.

Lemma ct_names_inv x : x ∈ ct_names domain -> P x.
Proof.
  unfold ct_names, crtsh_body.
  destruct (requests_get _ _) as [r|e]; [|by rewrite elem_of_empty].
  destruct (negb _); [by rewrite elem_of_empty|].
  destruct (json r) as [data|e]; [|by rewrite elem_of_empty].
  destruct (PyVal.iter data) as [rows|e]; [|by rewrite elem_of_empty].
  pose proof (scan_rows_inv rows ∅) as Hinv.
  destruct (scan_rows domain rows ∅) as [subs [[]|e]]; simpl in Hinv;
    apply Hinv; intros y; by rewrite elem_of_empty.
Qed.

End Invariant.

(** The names from crt.sh are the domain or names below it. *)
Lemma ct_names_subtree domain name :
  name ∈ ct_names domain ->
  name = lower domain \/ exists p, name = p ++ "." ++ lower domain.
Proof.
  apply (ct_names_inv domain
           (fun x => x = lower domain \/ exists p, x = p ++ "." ++ lower domain)).
  intros line [Hs|He]%orb_prop.
  - right. by apply endswith_suffix.
  - left. by apply String.eqb_eq.
Qed.

(** The names from crt.sh are lower-cased. *)
Lemma ct_names_lower domain name :
  name ∈ ct_names domain -> lower name = name.
Proof.
  apply (ct_names_inv domain (fun x => lower x = x)).
  intros line _. apply cleaned_lower.
Qed.

Lemma normalize_domain_lower raw :
  lower (normalize_domain raw) = normalize_domain raw.
Proof.
  unfold normalize_domain, rstrip_dots.
  rewrite <- rstrip_lower by apply lower_char_dot. by rewrite lower_idemp.
Qed.

Lemma add_words_elem domain base : forall (candidates : gset string) x,
  x ∈ add_words domain base candidates <->
  x ∈ candidates \/ exists s, s ∈ base /\ x = s ++ "." ++ domain.
Proof.
  unfold add_words. induction base as [|s base IH]; intros candidates x; simpl.
  - split; [auto|]. intros [?|(s & Hs & _)]; [done|]. by apply elem_of_nil in Hs.
  - rewrite IH, elem_of_union, elem_of_singleton. split.
    + intros [[?| ->]|(s' & Hs' & ->)]; eauto.
      * right. exists s. split; [left|done].
      * right. exists s'. split; [by right|done].
    + intros [?|(s' & [->|Hs']%elem_of_cons & ->)]; eauto.
Qed.

(** The candidates from the built-in list are lower-cased. *)
Lemma default_candidates_lower raw x :
  x ∈ add_words (normalize_domain raw) DEFAULT_SUBS ∅ -> lower x = x.
Proof.
  rewrite add_words_elem, elem_of_empty. intros [[]|(s & Hs & ->)].
  rewrite !lower_app, normalize_domain_lower. f_equal.
  revert s Hs. apply Forall_forall.
  unfold DEFAULT_SUBS. repeat (constructor; [reflexivity|]). constructor.
Qed.

End SourceFacts.

(** ** Examples *)

Section Examples.
Let cr : string := String "013" "".
Let lf : string := String "010" "".

Example strip_example : PyStr.strip ("  Example.COM. " ++ lf) = "Example.COM.".
Proof. reflexivity. Qed.

Example normalize_domain_example :
  normalize_domain " Example.COM.. " = "example.com".
Proof. reflexivity. Qed.

Example splitlines_example :
  PyStr.splitlines ("a" ++ cr ++ lf ++ "b" ++ lf) = ["a"; "b"]
  /\ PyStr.splitlines lf = [""]
  /\ PyStr.splitlines "" = []
  /\ PyStr.splitlines ("a" ++ lf ++ lf ++ "b") = ["a"; ""; "b"]
  /\ PyStr.splitlines ("a" ++ cr ++ cr ++ lf ++ "b") = ["a"; ""; "b"]
  /\ PyStr.splitlines ("a" ++ lf ++ cr ++ "b") = ["a"; ""; "b"].
Proof. repeat split; reflexivity. Qed.

Example endswith_example :
  PyStr.endswith ".example.com" "dev.example.com" = true
  /\ PyStr.endswith ".example.com" "example.com" = false
  /\ PyStr.endswith ".example.com" "notexample.com" = false.
Proof. repeat split; reflexivity. Qed.

Example str_example :
  PyVal.str (VInt (-5)) = "-5"
  /\ PyVal.str VNone = "None"
  /\ PyVal.str (VList [VInt 1; VStr "a"]) = "[1, 'a']"
  /\ PyVal.str (VDict [("a", VFloat "1.5"); ("b", VNone)])
     = "{'a': 1.5, 'b': None}"
  /\ PyVal.repr (VStr ("a'b" ++ lf)) = String PyVal.dquote "a'b\n"
                                         ++ String PyVal.dquote "".
Proof. repeat split; reflexivity. Qed.

Example wordlist_lines_example :
  wordlist_lines ["# common names" ++ lf; "www" ++ lf; lf; "  dev  " ++ lf]
  = ["www"; "dev"].
Proof. reflexivity. Qed.

(** A wildcard name from crt.sh gives the name below the wildcard. *)
Example wildcard_example :
  add_name "example.com" ∅ "*.dev.example.com" = {[ "dev.example.com" ]}
  /\ add_name "example.com" ∅ "other.org" = ∅.
Proof. split; vm_compute; reflexivity. Qed.

(** A host with an A record is reported, with its record. *)
Example report_example :
  exists run records,
    outcome (main (W := Stub.world) Stub.args) = Ok run
    /\ Dict.keys (subdomains run) = ["dev.example.com"; "www.example.com"]
    /\ Dict.get "www.example.com" (subdomains run)
       = Some (VDict [("records", VDict records);
                      ("http",
                       VDict [("https",
                               VStr "301 -> https://www.example.com/login");
                              ("http", VStr "ERR (ConnectionError)")])])
    /\ Dict.get "A" records = Some (VList [VStr "93.184.216.34"]).
Proof.
  eexists _, _. split; [vm_compute; reflexivity|].
  repeat split; reflexivity.
Qed.

End Examples.

(** * Further properties *)

(** ** What a run does and does not do *)

Section RunFacts.
Context {W : World}.

Lemma given_some x path : given x = Some path -> x = Some path /\ path <> "".
Proof.
  unfold given. destruct x as [s|]; [|done].
  destruct (String.eqb_spec s ""); [done|]. by intros [= <-].
Qed.

Lemma queried_app rtype t1 t2 :
  queried rtype (t1 ++ t2)%list = (queried rtype t1 ++ queried rtype t2)%list.
Proof.
  induction t1 as [|ev t1 IH]; [done|].
  destruct ev; simpl; rewrite ?IH; [|done..].
  by destruct (String.eqb _ _).
Qed.

Lemma queried_none rtype t :
  (forall name rtype', EvResolve name rtype' ∉ t) -> queried rtype t = [].
Proof.
  induction t as [|ev t IH]; [done|]. intros Hno.
  assert (Ht : queried rtype t = []).
  { apply IH. intros name rtype' Hin. apply (Hno name rtype'). by right. }
  destruct ev; simpl; try done.
  exfalso. eapply Hno. left.
Qed.

Lemma queried_rounds probe hosts :
  queried "CNAME" (concat (map (round_events probe) hosts)) = hosts.
Proof.
  induction hosts as [|h hosts IH]; [done|].
  cbn [concat map]. rewrite queried_app, IH. unfold round_events.
  rewrite queried_app. destruct (live h && probe); reflexivity.
Qed.

Lemma collect_candidates_no_query args domain name rtype :
  EvResolve name rtype ∉ trace (collect_candidates args domain).
Proof.
  intros [[path Hev]|Hev]%collect_candidates_trace; discriminate.
Qed.

Lemma write_json_no_query args final name rtype :
  EvResolve name rtype ∉ trace (write_json args final).
Proof.
  intros (path & _ & [Hev|Hev])%write_json_trace; discriminate.
Qed.

(** X1: every candidate is resolved once, and the candidates are resolved
    in sorted order: the CNAME queries of a run are the queries for the
    sorted candidates. *)
Theorem candidates_resolved_once args candidates :
  resolver_new = Ok tt ->
  outcome (collect_candidates args (normalize_domain (Args.domain args)))
    = Ok candidates ->
  queried "CNAME" (trace (main args)) = sorted candidates
  /\ NoDup (queried "CNAME" (trace (main args)))
  /\ forall host,
       host ∈ queried "CNAME" (trace (main args)) <-> host ∈ candidates.
Proof.
  intros Hnew Hc.
  destruct (collect_candidates args _) as [o t] eqn:Hcc.
  cbn [outcome fst] in Hc. subst o.
  assert (Hq : queried "CNAME" (trace (main args)) = sorted candidates).
  { rewrite (main_run Hnew _ _ _ Hcc). cbn [trace snd].
    rewrite !queried_app, queried_rounds.
    rewrite (queried_none _ t), (queried_none _ (trace (write_json _ _))).
    - simpl. by rewrite app_nil_r.
    - intros name rtype. apply write_json_no_query.
    - intros name rtype.
      pose proof (collect_candidates_no_query args
                    (normalize_domain (Args.domain args)) name rtype) as Hno.
      by rewrite Hcc in Hno. }
  rewrite Hq. split; [done|]. split; [apply sorted_NoDup|].
  intros host. apply elem_of_sorted.
Qed.

Lemma round_events_head probe hosts target :
  EvHead target ∈ concat (map (round_events probe) hosts) ->
  probe = true
  /\ exists host,
       host ∈ hosts /\ live host = true
       /\ (target = "https://" ++ host \/ target = "http://" ++ host).
Proof.
  induction hosts as [|h hosts IH]; cbn [concat map].
  - by rewrite elem_of_nil.
  - rewrite elem_of_app. intros [Hin|Hin].
    + unfold round_events in Hin. rewrite elem_of_app in Hin.
      destruct Hin as [Hin|Hin].
      * rewrite !elem_of_cons, elem_of_nil in Hin.
        destruct Hin as [H|[H|[H|[H|[]]]]]; discriminate.
      * destruct (live h) eqn:Hlive, probe; simpl in Hin;
          rewrite ?elem_of_cons, elem_of_nil in Hin; try done.
        split; [done|]. exists h. split; [left|]. split; [done|].
        destruct Hin as [[= ->]|[[= ->]|[]]]; auto.
    + destruct (IH Hin) as (Hp & host & Hh & Hrest).
      split; [done|]. exists host. split; [by right|done].
Qed.

(** X2: a HEAD request is made only when probing is requested, and only
    for a candidate whose record set has an address or alias record: a
    host that is reported. *)
Theorem probes_only_reported_hosts args target :
  EvHead target ∈ trace (main args) ->
  Args.probe args = true
  /\ exists host rec candidates,
       (target = "https://" ++ host \/ target = "http://" ++ host)
       /\ outcome (collect_candidates args
                     (normalize_domain (Args.domain args))) = Ok candidates
       /\ host ∈ candidates
       /\ outcome (resolve_host host) = Ok rec
       /\ has_address rec
       /\ forall run,
            outcome (main args) = Ok run ->
            host ∈ Dict.keys (subdomains run).
Proof.
  intros Hev.
  destruct resolver_new as [[]|e] eqn:Hnew;
    [|rewrite (main_unconfigured _ _ Hnew) in Hev;
      by apply elem_of_nil in Hev].
  apply main_trace in Hev.
  destruct Hev as [Hev|[Hev|(candidates & Hc & [Hev|Hev])]].
  - unfold root_events in Hev. rewrite !elem_of_cons, elem_of_nil in Hev.
    destruct Hev as [H|[H|[H|[H|[H|[H|[]]]]]]]; discriminate.
  - apply collect_candidates_trace in Hev as [[p Hev]|Hev]; discriminate.
  - apply round_events_head in Hev as (Hp & host & Hh & Hlive & Htarget).
    split; [done|]. exists host, (records host), candidates.
    apply elem_of_sorted in Hh.
    split; [done|]. split; [done|]. split; [done|].
    split; [by rewrite (resolve_host_run Hnew)|].
    split; [by apply has_address_live|].
    intros run Hrun.
    destruct (main_returns _ _ Hrun) as (_ & candidates' & Hc' & Hres & _).
    rewrite Hc in Hc'. injection Hc' as <-.
    rewrite (subdomains_final _ _ _ _ Hres), entries_of_keys.
    rewrite list_elem_of_filter, elem_of_sorted, Is_true_true. done.
  - apply write_json_trace in Hev as (p & _ & [Hev|Hev]); discriminate.
Qed.

Lemma collect_candidates_get args domain target params :
  EvGet target params ∈ trace (collect_candidates args domain) ->
  Args.no_crt args = false
  /\ target = crtsh_url /\ params = crtsh_params domain.
Proof.
  unfold collect_candidates.
  destruct (given (Args.wordlist args)) as [path|].
  - rewrite load_wordlist_run. destruct (open_read path) as [lines|e].
    + rewrite bind_ok. cbv beta. destruct (Args.no_crt args).
      * cbn [ret outcome trace fst snd app]. rewrite list_elem_of_singleton.
        discriminate.
      * rewrite fetch_crtsh_run, bind_ok. cbn [ret outcome trace fst snd app].
        rewrite !elem_of_cons, elem_of_nil.
        intros [H|[[= -> ->]|[]]]; [discriminate|done].
    + rewrite bind_raise. cbn [trace snd]. rewrite list_elem_of_singleton.
      discriminate.
  - rewrite bind_ret. destruct (Args.no_crt args).
    + cbn [ret trace snd]. by rewrite elem_of_nil.
    + rewrite fetch_crtsh_run, bind_ok. cbn [ret outcome trace fst snd app].
      rewrite list_elem_of_singleton. by intros [= -> ->].
Qed.

(** X3: the only GET request of a run goes to crt.sh, with the query
    ["%." + domain] and JSON output, and none is made when crt.sh is
    disabled. *)
Theorem crtsh_only_when_enabled args target params :
  EvGet target params ∈ trace (main args) ->
  Args.no_crt args = false
  /\ target = "https://crt.sh/"
  /\ params = [("q", "%." ++ normalize_domain (Args.domain args));
               ("output", "json")].
Proof.
  intros Hev. apply main_trace in Hev.
  destruct Hev as [Hev|[Hev|(candidates & _ & [Hev|Hev])]].
  - unfold root_events in Hev. rewrite !elem_of_cons, elem_of_nil in Hev.
    destruct Hev as [H|[H|[H|[H|[H|[H|[]]]]]]]; discriminate.
  - by apply collect_candidates_get in Hev.
  - apply round_events_kinds in Hev as [(n & r & Hev)|(u & Hev)];
      discriminate.
  - apply write_json_trace in Hev as (p & _ & [Hev|Hev]); discriminate.
Qed.

Lemma collect_candidates_open args domain path mode :
  EvOpen path mode ∈ trace (collect_candidates args domain) ->
  mode = "r" /\ given (Args.wordlist args) = Some path.
Proof.
  unfold collect_candidates.
  destruct (given (Args.wordlist args)) as [path'|].
  - rewrite load_wordlist_run. destruct (open_read path') as [lines|e].
    + rewrite bind_ok. cbv beta. destruct (Args.no_crt args).
      * cbn [ret outcome trace fst snd app]. rewrite list_elem_of_singleton.
        by intros [= -> ->].
      * rewrite fetch_crtsh_run, bind_ok. cbn [ret outcome trace fst snd app].
        rewrite !elem_of_cons, elem_of_nil.
        intros [[= -> ->]|[H|[]]]; [done|discriminate].
    + rewrite bind_raise. cbn [trace snd]. rewrite list_elem_of_singleton.
      by intros [= -> ->].
  - rewrite bind_ret. destruct (Args.no_crt args).
    + cbn [ret trace snd]. by rewrite elem_of_nil.
    + rewrite fetch_crtsh_run, bind_ok. cbn [ret outcome trace fst snd app].
      rewrite list_elem_of_singleton. discriminate.
Qed.

(** X4: a run opens no file but the word list that [--wordlist] names,
    for reading, and the file that [--json] names, for writing, and it
    dumps to no other file; an empty file name counts as none. *)
Theorem files_only_as_named args :
  (forall path mode,
     EvOpen path mode ∈ trace (main args) ->
     path <> ""
     /\ (mode = "r" /\ Args.wordlist args = Some path
         \/ mode = "w" /\ Args.json_out args = Some path))
  /\ (forall path doc,
        EvDump path doc ∈ trace (main args) ->
        path <> "" /\ Args.json_out args = Some path).
Proof.
  split.
  - intros path mode Hev. apply main_trace in Hev.
    destruct Hev as [Hev|[Hev|(candidates & _ & [Hev|Hev])]].
    + unfold root_events in Hev. rewrite !elem_of_cons, elem_of_nil in Hev.
      destruct Hev as [H|[H|[H|[H|[H|[H|[]]]]]]]; discriminate.
    + apply collect_candidates_open in Hev as [-> [Hw Hne]%given_some]. auto.
    + apply round_events_kinds in Hev as [(n & r & Hev)|(u & Hev)];
        discriminate.
    + apply write_json_trace in Hev as (p & [Hj Hne]%given_some & [Hev|Hev]);
        [|discriminate].
      injection Hev as -> ->. auto.
  - intros path doc Hev. apply main_trace in Hev.
    destruct Hev as [Hev|[Hev|(candidates & _ & [Hev|Hev])]].
    + unfold root_events in Hev. rewrite !elem_of_cons, elem_of_nil in Hev.
      destruct Hev as [H|[H|[H|[H|[H|[H|[]]]]]]]; discriminate.
    + apply collect_candidates_trace in Hev as [[p Hev]|Hev]; discriminate.
    + apply round_events_kinds in Hev as [(n & r & Hev)|(u & Hev)];
        discriminate.
    + apply write_json_trace in Hev as (p & [Hj Hne]%given_some & [Hev|Hev]);
        [discriminate|].
      injection Hev as -> _. auto.
Qed.

(** X5: a word list that cannot be opened stops the run with the
    exception of [open], after the six queries for the root domain and
    before anything else: no request to crt.sh, no candidate resolved,
    nothing written. *)
Theorem wordlist_failure_is_fatal args path e :
  resolver_new = Ok tt ->
  given (Args.wordlist args) = Some path ->
  open_read path = Raise e ->
  main args =
    (Raise e,
     (root_events (normalize_domain (Args.domain args))
      ++ [EvOpen path "r"])%list).
Proof.
  intros Hnew Hpath Hread. apply (main_run_raise Hnew).
  unfold collect_candidates.
  by rewrite Hpath, load_wordlist_run, Hread, bind_raise.
Qed.

(** X6: an output file that cannot be opened stops the run with the
    exception of [open], after every candidate has been resolved; nothing
    is dumped and the failed [open] is the last external call. *)
Theorem output_failure_is_fatal args candidates path e :
  resolver_new = Ok tt ->
  outcome (collect_candidates args (normalize_domain (Args.domain args)))
    = Ok candidates ->
  given (Args.json_out args) = Some path ->
  open_write path = Raise e ->
  outcome (main args) = Raise e
  /\ (exists t, trace (main args) = (t ++ [EvOpen path "w"])%list)
  /\ (forall path' doc, EvDump path' doc ∉ trace (main args))
  /\ queried "CNAME" (trace (main args)) = sorted candidates.
Proof.
  intros Hnew Hc Hpath Hwrite.
  split; [|split; [|split]];
    [| | |by apply candidates_resolved_once].
  all: destruct (collect_candidates args _) as [o t] eqn:Hcc;
    cbn [outcome fst] in Hc; subst o;
    rewrite (main_run Hnew _ _ _ Hcc); unfold write_json;
    rewrite Hpath; unfold call; rewrite Hwrite, bind_raise;
    cbn [outcome trace fst snd].
  - reflexivity.
  - eexists. rewrite !app_assoc. reflexivity.
  - intros path' doc. rewrite !elem_of_app.
    intros [Hev|[Hev|[Hev|Hev]]].
    + unfold root_events in Hev. rewrite !elem_of_cons, elem_of_nil in Hev.
      destruct Hev as [H|[H|[H|[H|[H|[H|[]]]]]]]; discriminate.
    + assert (Hev' : EvDump path' doc ∈ trace (collect_candidates args
                        (normalize_domain (Args.domain args))))
        by (by rewrite Hcc).
      apply collect_candidates_trace in Hev' as [[p H]|H]; discriminate.
    + apply round_events_kinds in Hev as [(n & r & H)|(u & H)]; discriminate.
    + apply list_elem_of_singleton in Hev. discriminate.
Qed.

(** X7: when the resolver cannot be built, every query raises the
    exception of the constructor, and the run stops with it before any
    external call. *)
Theorem resolver_failure_is_fatal e :
  resolver_new = Raise e ->
  (forall name rtype, dns_query name rtype = (Raise e, []))
  /\ (forall host, resolve_host host = (Raise e, []))
  /\ (forall args, main args = (Raise e, [])).
Proof.
  intros Hnew. split; [|split].
  - intros name rtype. unfold dns_query. by rewrite Hnew.
  - intros host. unfold resolve_host, dns_query. by rewrite Hnew.
  - intros args. by apply main_unconfigured.
Qed.

End RunFacts.

(** An element of a list that computes. *)
Ltac in_list :=
  apply list_elem_of_In; vm_compute;
  repeat first [left; reflexivity | right].

(** X1 on the run of [Stub.args]. *)
Lemma candidates_resolved_once_witness :
  resolver_new (World := Stub.world) = Ok tt
  /\ outcome (collect_candidates (W := Stub.world) Stub.args "example.com")
     = Ok Stub.candidates
  /\ queried "CNAME" (trace (main (W := Stub.world) Stub.args))
     = ["dev.example.com"; "mail.example.com"; "www.example.com"].
Proof.
  assert (Hc : outcome (collect_candidates (W := Stub.world) Stub.args
                          (normalize_domain (Args.domain Stub.args)))
               = Ok Stub.candidates)
    by (vm_compute; reflexivity).
  split; [reflexivity|]. split; [exact Hc|].
  rewrite (proj1 (candidates_resolved_once (W := Stub.world) Stub.args
                    Stub.candidates eq_refl Hc)).
  vm_compute. reflexivity.
Defined.

(** X2 on the HEAD request for https://www.example.com. *)
Lemma probes_only_reported_hosts_witness :
  EvHead "https://www.example.com" ∈ trace (main (W := Stub.world) Stub.args)
  /\ Args.probe Stub.args = true.
Proof.
  assert (Hev : EvHead "https://www.example.com"
                  ∈ trace (main (W := Stub.world) Stub.args)) by in_list.
  split; [exact Hev|].
  exact (proj1 (probes_only_reported_hosts (W := Stub.world) Stub.args
                  "https://www.example.com" Hev)).
Defined.

(** X3 on the request of the run of [Stub.args]. *)
Lemma crtsh_only_when_enabled_witness :
  EvGet "https://crt.sh/" [("q", "%.example.com"); ("output", "json")]
    ∈ trace (main (W := Stub.world) Stub.args)
  /\ Args.no_crt Stub.args = false.
Proof.
  assert (Hev : EvGet "https://crt.sh/"
                  [("q", "%.example.com"); ("output", "json")]
                  ∈ trace (main (W := Stub.world) Stub.args)) by in_list.
  split; [exact Hev|].
  exact (proj1 (crtsh_only_when_enabled (W := Stub.world) Stub.args _ _ Hev)).
Defined.

(** X4 on the word list of the run of [Stub.args]. *)
Lemma files_only_as_named_witness :
  EvOpen "words.txt" "r" ∈ trace (main (W := Stub.world) Stub.args)
  /\ "words.txt" <> ""
  /\ ("r" = "r" /\ Args.wordlist Stub.args = Some "words.txt"
      \/ "r" = "w" /\ Args.json_out Stub.args = Some "words.txt").
Proof.
  assert (Hev : EvOpen "words.txt" "r"
                  ∈ trace (main (W := Stub.world) Stub.args)) by in_list.
  split; [exact Hev|].
  exact (proj1 (files_only_as_named (W := Stub.world) Stub.args) _ _ Hev).
Defined.

(** X5 on a word list that does not exist. *)
Lemma wordlist_failure_is_fatal_witness :
  main (W := Stub.world) Cases.missing_args =
    (Raise (Exception "FileNotFoundError"),
     [EvResolve "example.com" "NS"; EvResolve "example.com" "MX";
      EvResolve "example.com" "SOA"; EvResolve "example.com" "TXT";
      EvResolve "example.com" "A"; EvResolve "example.com" "AAAA";
      EvOpen "missing.txt" "r"]).
Proof.
  exact (wordlist_failure_is_fatal (W := Stub.world) Cases.missing_args
           "missing.txt" (Exception "FileNotFoundError")
           eq_refl eq_refl eq_refl).
Defined.

(** X6 on a world where no file can be written. *)
Lemma output_failure_is_fatal_witness :
  outcome (main (W := Cases.readonly_world) Stub.args)
  = Raise (Exception "PermissionError").
Proof.
  assert (Hc : outcome (collect_candidates (W := Cases.readonly_world)
                          Stub.args (normalize_domain (Args.domain Stub.args)))
               = Ok Stub.candidates)
    by (vm_compute; reflexivity).
  exact (proj1 (output_failure_is_fatal (W := Cases.readonly_world) Stub.args
                  Stub.candidates "out.json" (Exception "PermissionError")
                  eq_refl Hc eq_refl eq_refl)).
Defined.

(** X7 on a world without resolver. *)
Lemma resolver_failure_is_fatal_witness :
  main (W := Cases.no_resolver_world) Stub.args
  = (Raise (Exception "NoResolverConfiguration"), []).
Proof.
  exact (proj2 (proj2 (resolver_failure_is_fatal
                         (W := Cases.no_resolver_world)
                         (Exception "NoResolverConfiguration") eq_refl))
           Stub.args).
Defined.

(** ** Stripping *)

Section StripFacts.
Import PyStr.

Lemma rstrip_by_idemp p s : rstrip_by p (rstrip_by p s) = rstrip_by p s.
Proof.
  induction s as [|c s IH]; simpl; [done|].
  destruct (rstrip_by p s) as [|c' r] eqn:Hr.
  - destruct (p c) eqn:Hc; simpl; by rewrite ?Hc.
  - simpl in *. by rewrite IH.
Qed.

Lemma rstrip_by_length p s :
  (String.length (rstrip_by p s) <= String.length s)%nat.
Proof.
  destruct (rstrip_by_split p s) as (w & _ & Hs).
  rewrite Hs at 2. rewrite length_app_str. lia.
Qed.

(** A string that [lstrip] leaves alone is empty or starts with a
    character that is kept. *)
Lemma lstrip_by_fixed_head p s :
  lstrip_by p s = s -> s = "" \/ exists c r, s = String c r /\ p c = false.
Proof.
  destruct s as [|c r]; [by left|]. simpl.
  destruct (p c) eqn:Hc; [|right; by exists c, r].
  intros Hs. exfalso.
  destruct (lstrip_by_split p r) as (w & _ & Hw).
  apply (f_equal String.length) in Hs. rewrite Hw in Hs at 2.
  simpl in Hs. rewrite length_app_str in Hs. lia.
Qed.

Lemma lstrip_by_idemp p s : lstrip_by p (lstrip_by p s) = lstrip_by p s.
Proof.
  induction s as [|c s IH]; simpl; [done|].
  destruct (p c) eqn:Hc; [done|]. simpl. by rewrite Hc.
Qed.

(** [rstrip] does not uncover characters for [lstrip]. *)
Lemma lstrip_by_rstrip p q s :
  lstrip_by p s = s -> lstrip_by p (rstrip_by q s) = rstrip_by q s.
Proof.
  intros [->|(c & r & -> & Hc)]%lstrip_by_fixed_head; [done|].
  simpl. destruct (rstrip_by q r); [destruct (q c)|]; simpl; by rewrite ?Hc.
Qed.

Lemma strip_lstrip s : lstrip_by is_space (strip s) = strip s.
Proof. unfold strip. apply lstrip_by_rstrip, lstrip_by_idemp. Qed.

Lemma strip_idemp s : strip (strip s) = strip s.
Proof.
  unfold strip at 1. rewrite strip_lstrip. unfold strip.
  apply rstrip_by_idemp.
Qed.

(** What [rstrip] returns does not end with a stripped character. *)
Lemma rstrip_by_no_suffix p s x c :
  p c = true -> rstrip_by p s <> x ++ String c "".
Proof.
  intros Hc Hs.
  assert (Hx : rstrip_by p s = rstrip_by p x).
  { rewrite <- rstrip_by_idemp, Hs. apply rstrip_by_app. simpl. by rewrite Hc. }
  pose proof (rstrip_by_length p x) as Hlen. rewrite <- Hx, Hs in Hlen.
  rewrite length_app_str in Hlen. simpl in Hlen. lia.
Qed.

(** X8: the domain of a run is lower-cased, does not end with a dot and
    does not start with white space, whatever the argument. *)
Theorem normalize_domain_shape raw :
  lower (normalize_domain raw) = normalize_domain raw
  /\ endswith "." (normalize_domain raw) = false
  /\ lstrip_by is_space (normalize_domain raw) = normalize_domain raw.
Proof.
  split; [apply normalize_domain_lower|]. split.
  - destruct (endswith "." (normalize_domain raw)) eqn:He; [|done].
    apply endswith_suffix in He as [x Hx]. exfalso.
    by eapply (rstrip_by_no_suffix is_dot _ x "."%char).
  - unfold normalize_domain, rstrip_dots. apply lstrip_by_rstrip.
    rewrite lstrip_lower. f_equal. apply strip_lstrip.
Qed.

End StripFacts.

Section WordlistFacts.
Context {W : World}.
Import PyStr.

(** X9: the words of a word list are its lines, stripped, except the lines
    that are blank or start with # after stripping; a word has no
    surrounding white space, is not empty and does not start with #. *)
Theorem wordlist_lines_kept lines word :
  (word ∈ wordlist_lines lines <->
   exists line,
     line ∈ lines /\ word = strip line /\ word <> ""
     /\ startswith "#" word = false)
  /\ (word ∈ wordlist_lines lines -> strip word = word).
Proof.
  assert (Hiff : word ∈ wordlist_lines lines <->
                 exists line,
                   line ∈ lines /\ word = strip line /\ word <> ""
                   /\ startswith "#" word = false).
  { induction lines as [|line lines IH]; simpl.
    - rewrite elem_of_nil. split; [done|]. intros (l & Hl & _).
      by apply elem_of_nil in Hl.
    - destruct (String.eqb_spec (strip line) "") as [He|Hne]; simpl.
      + rewrite IH. split.
        * intros (l & Hl & Hrest). exists l. split; [by right|done].
        * intros (l & [->|Hl]%elem_of_cons & -> & Hw & Hc); [done|].
          by exists l.
      + destruct (startswith "#" (strip line)) eqn:Hc.
        * rewrite IH. split.
          -- intros (l & Hl & Hrest). exists l. split; [by right|done].
          -- intros (l & [->|Hl]%elem_of_cons & -> & Hw & Hc'); [congruence|].
             by exists l.
        * rewrite elem_of_cons, IH. split.
          -- intros [->|(l & Hl & Hrest)].
             ++ exists line. split; [left|done].
             ++ exists l. split; [by right|done].
          -- intros (l & [->|Hl]%elem_of_cons & -> & Hw & Hc'); [by left|].
             right. by exists l. }
  split; [exact Hiff|].
  intros (line & _ & -> & _)%Hiff. apply strip_idemp.
Qed.

(** X10: the strings that [dns_query] returns have no surrounding white
    space. *)
Theorem dns_query_stripped name rtype out record :
  outcome (dns_query name rtype) = Ok out ->
  record ∈ out -> strip record = record.
Proof.
  unfold dns_query. destruct resolver_new as [[]|e]; [|discriminate].
  rewrite lift_ok, bind_ret. unfold try_except, bind, call, ret; simpl.
  destruct (resolver_resolve name rtype) as [l|e]; simpl.
  - intros [= <-] (s & -> & _)%list_elem_of_fmap. apply strip_idemp.
  - intros [= <-]. by rewrite elem_of_nil.
Qed.

End WordlistFacts.

(** ** The names from crt.sh *)

Section NameFacts.
Context {W : World}.
Import PyStr.

Lemma add_name_elem domain (subs : gset string) line x :
  x ∈ add_name domain subs line <->
  x ∈ subs \/ (kept domain line = true /\ x = cleaned line).
Proof.
  unfold add_name, kept. fold (cleaned line).
  destruct (_ || _).
  - rewrite elem_of_union, elem_of_singleton. tauto.
  - split; [auto|]. by intros [?|[? _]].
Qed.

Lemma add_names_elem domain lines : forall (subs : gset string) x,
  x ∈ fold_left (add_name domain) lines subs <->
  x ∈ subs
  \/ exists line, line ∈ lines /\ kept domain line = true /\ x = cleaned line.
Proof.
  induction lines as [|l lines IH]; intros subs x; simpl.
  - split; [auto|]. intros [?|(l & Hl & _)]; [done|].
    by apply elem_of_nil in Hl.
  - rewrite IH, add_name_elem. split.
    + intros [[?|[Hk ->]]|(l' & Hl' & Hk & ->)]; auto.
      * right. exists l. split; [left|done].
      * right. exists l'. split; [by right|done].
    + intros [?|(l' & [->|Hl']%elem_of_cons & Hk & ->)]; auto.
      right. by exists l'.
Qed.

Lemma scan_rows_elem domain rows : forall (subs : gset string),
  Forall is_object rows ->
  snd (scan_rows domain rows subs) = Ok tt
  /\ forall x,
       x ∈ fst (scan_rows domain rows subs) <->
       x ∈ subs
       \/ exists row nv line,
            row ∈ rows /\ PyVal.get row "name_value" (VStr "") = Ok nv
            /\ line ∈ splitlines (PyVal.str nv)
            /\ kept domain line = true /\ x = cleaned line.
Proof.
  induction rows as [|row rows IH]; intros subs Hrows.
  - split; [done|]. intros x. simpl. split; [auto|].
    intros [?|(row & nv & l & Hr & _)]; [done|]. by apply elem_of_nil in Hr.
  - apply Forall_cons in Hrows as [[items ->] Hrows].
    cbn [scan_rows PyVal.get].
    destruct (IH (fold_left (add_name domain)
                    (splitlines (PyVal.str
                       (default (VStr "") (Dict.get "name_value" items))))
                    subs) Hrows) as [Hok Hiff].
    split; [exact Hok|]. intros x. rewrite Hiff, add_names_elem. split.
    + intros [[?|(l & Hl & Hk & ->)]|(row & nv & l & Hr & Hg & Hl & Hk & ->)];
        auto.
      * right. eexists (VDict items), _, l. split; [left|]. by split.
      * right. exists row, nv, l. split; [by right|done].
    + intros [?|(row & nv & l & [->|Hr]%elem_of_cons & Hg & Hl & Hk & ->)];
        auto.
      * left. right. exists l. injection Hg as <-. done.
      * right. by exists row, nv, l.
Qed.

(** X11: whatever crt.sh answers, every name that [fetch_crtsh] returns is
    lower-cased and is the lower-cased domain or ends with a dot and the
    lower-cased domain. *)
Theorem fetch_crtsh_sound domain subs name :
  outcome (fetch_crtsh domain) = Ok subs ->
  name ∈ subs ->
  lower name = name
  /\ (name = lower domain \/ exists p, name = p ++ "." ++ lower domain).
Proof.
  rewrite fetch_crtsh_run. intros [= <-] Hin.
  split; [by eapply ct_names_lower|by apply ct_names_subtree].
Qed.

(** X12: when crt.sh answers with status 200 and a list of objects,
    [fetch_crtsh] returns the names of all lines of all [name_value]
    fields that pass the test of line 62, cleaned, and no other: the
    order of the rows does not count and repeated names are one. *)
Theorem fetch_crtsh_complete domain r data rows :
  requests_get crtsh_url [("q", "%." ++ domain); ("output", "json")] = Ok r ->
  status_code r = 200 ->
  json r = Ok data ->
  PyVal.iter data = Ok rows ->
  Forall is_object rows ->
  exists subs,
    outcome (fetch_crtsh domain) = Ok subs
    /\ forall name,
         name ∈ subs <->
         exists row nv line,
           row ∈ rows /\ PyVal.get row "name_value" (VStr "") = Ok nv
           /\ line ∈ splitlines (PyVal.str nv)
           /\ kept domain line = true /\ name = cleaned line.
Proof.
  intros Hget Hstatus Hjson Hiter Hrows.
  rewrite fetch_crtsh_run. eexists. split; [reflexivity|].
  unfold ct_names, crtsh_params, crtsh_body.
  rewrite Hget, Hstatus, Hjson, Hiter. simpl.
  destruct (scan_rows_elem domain rows ∅ Hrows) as [Hok Hiff].
  destruct (scan_rows domain rows ∅) as [subs ending]. simpl in *.
  subst ending. intros name. rewrite Hiff, elem_of_empty.
  split; [by intros [[]|?]|auto].
Qed.

Lemma strip_wildcard z : strip z = z -> strip ("*." ++ z) = "*." ++ z.
Proof.
  intros [_ Hr]%strip_fixed. unfold strip.
  change (lstrip_by is_space ("*." ++ z)) with ("*." ++ z).
  destruct z as [|c z]; [reflexivity|].
  rewrite rstrip_by_app_r; rewrite Hr; done.
Qed.

(** X13: a name with one wildcard label gives the candidate of the name
    below the wildcard. *)
Theorem wildcard_collapses domain (subs : gset string) line :
  startswith "*." (lower (strip line)) = false ->
  add_name domain subs ("*." ++ strip line) = add_name domain subs line.
Proof.
  intros Hplain. unfold add_name.
  rewrite strip_wildcard by apply strip_idemp.
  rewrite lower_app. change (lower "*.") with "*.".
  assert (Hwild : startswith "*." ("*." ++ lower (strip line)) = true)
    by (by destruct (lower (strip line))).
  rewrite Hwild, Hplain. reflexivity.
Qed.

End NameFacts.

(** X10 on the NS records of example.com in the world of [Stub]. *)
Lemma dns_query_stripped_witness :
  outcome (dns_query (W := Stub.world) "example.com" "NS")
  = Ok ["a.iana-servers.net."; "b.iana-servers.net."]
  /\ "b.iana-servers.net." ∈ ["a.iana-servers.net."; "b.iana-servers.net."]
  /\ PyStr.strip "b.iana-servers.net." = "b.iana-servers.net.".
Proof.
  assert (Hin : "b.iana-servers.net."
                  ∈ ["a.iana-servers.net."; "b.iana-servers.net."])
    by in_list.
  split; [reflexivity|]. split; [exact Hin|].
  exact (dns_query_stripped (W := Stub.world) "example.com" "NS" _ _
           eq_refl Hin).
Defined.

(** X11 on the answer of crt.sh in the world of [Stub]. *)
Lemma fetch_crtsh_sound_witness :
  outcome (fetch_crtsh (W := Stub.world) "Example.com")
  = Ok {[ "dev.example.com"; "mail.example.com" ]}
  /\ "mail.example.com"
       ∈ ({[ "dev.example.com"; "mail.example.com" ]} : gset string)
  /\ PyStr.lower "mail.example.com" = "mail.example.com".
Proof.
  assert (Hout : outcome (fetch_crtsh (W := Stub.world) "Example.com")
                 = Ok {[ "dev.example.com"; "mail.example.com" ]})
    by (vm_compute; reflexivity).
  assert (Hin : "mail.example.com"
                  ∈ ({[ "dev.example.com"; "mail.example.com" ]} : gset string))
    by set_solver.
  split; [exact Hout|]. split; [exact Hin|].
  exact (proj1 (fetch_crtsh_sound (W := Stub.world) "Example.com" _ _
                  Hout Hin)).
Defined.

(** X12 on the answer of crt.sh in the world of [Stub]. *)
Lemma fetch_crtsh_complete_witness :
  exists subs,
    outcome (fetch_crtsh (W := Stub.world) "example.com") = Ok subs
    /\ forall name,
         name ∈ subs <->
         exists row nv line,
           row ∈ [VDict [("name_value",
                          VStr ("*.dev.example.com"
                                ++ String "010" "Mail.Example.com"))];
                  VDict [("name_value", VStr "other.org")]]
           /\ PyVal.get row "name_value" (VStr "") = Ok nv
           /\ line ∈ PyStr.splitlines (PyVal.str nv)
           /\ kept "example.com" line = true /\ name = cleaned line.
Proof.
  apply (fetch_crtsh_complete (W := Stub.world) "example.com"
           {| status_code := 200; url := crtsh_url; json := Ok Stub.ct_rows |}
           Stub.ct_rows); try reflexivity.
  repeat (constructor; [by eexists|]). constructor.
Defined.

(** X13 on the wildcard name of dev.example.com. *)
Lemma wildcard_collapses_witness :
  PyStr.startswith "*." (PyStr.lower (PyStr.strip "dev.example.com")) = false
  /\ add_name "example.com" ∅ "*.dev.example.com"
     = add_name "example.com" ∅ "dev.example.com".
Proof.
  split; [reflexivity|].
  exact (wildcard_collapses "example.com" ∅ "dev.example.com" eq_refl).
Defined.

(** ** What the report holds *)

Section LookupFacts.
Context {W : World}.

Lemma dict_get_entries {V} (f : string -> V) hosts host :
  host ∈ hosts ->
  Dict.get host (map (fun h => (h, f h)) hosts) = Some (f host).
Proof.
  induction hosts as [|h hosts IH]; [by rewrite elem_of_nil|].
  simpl. destruct (String.eqb_spec h host) as [->|Hne]; [done|].
  intros [->|Hin]%elem_of_cons; [done|auto].
Qed.

(** X14: every host of the report is a candidate, and it is the domain of
    the run or ends with a dot and the domain of the run. *)
Theorem reported_hosts_below_domain args run host :
  outcome (main args) = Ok run ->
  host ∈ Dict.keys (subdomains run) ->
  let domain := normalize_domain (Args.domain args) in
  (exists candidates,
     outcome (collect_candidates args domain) = Ok candidates
     /\ host ∈ candidates)
  /\ (host = domain \/ exists p, host = p ++ "." ++ domain).
Proof.
  intros Hrun Hkey domain.
  destruct (main_returns _ _ Hrun) as (_ & candidates & Hc & Hres & _).
  fold domain in Hc, Hres.
  rewrite (subdomains_final _ _ _ _ Hres), entries_of_keys in Hkey.
  apply list_elem_of_filter in Hkey as [_ Hin%elem_of_sorted].
  split; [by exists candidates|].
  destruct (collect_candidates_returns _ _ _ Hc) as [base ->].
  apply elem_of_union in Hin as [Hin|Hin].
  - apply add_words_elem in Hin as [Hin|(s & _ & ->)];
      [by apply elem_of_empty in Hin|].
    right. by exists s.
  - destruct (Args.no_crt args); [by apply elem_of_empty in Hin|].
    apply ct_names_subtree in Hin. unfold domain in *.
    by rewrite normalize_domain_lower in Hin.
Qed.

(** X15: the entry of a reported host holds, under [records], the record
    set that [resolve_host] returned for it and, when the run probes,
    under [http] what [http_probe] returned for it; without probing there
    is no [http] field. *)
Theorem report_lookup args run host :
  outcome (main args) = Ok run ->
  host ∈ Dict.keys (subdomains run) ->
  exists rec entry,
    outcome (resolve_host host) = Ok rec
    /\ Dict.get host (subdomains run) = Some (VDict entry)
    /\ Dict.get "records" entry = Some (of_records rec)
    /\ if Args.probe args
       then exists p, outcome (http_probe host) = Ok p
                      /\ Dict.get "http" entry = Some (of_probe p)
       else Dict.get "http" entry = None.
Proof.
  intros Hrun Hkey.
  destruct (main_returns _ _ Hrun) as (Hnew & candidates & _ & Hres & _).
  rewrite (subdomains_final _ _ _ _ Hres) in Hkey |- *.
  rewrite entries_of_keys in Hkey.
  exists (records host). eexists.
  split; [by rewrite (resolve_host_run Hnew)|].
  split; [unfold entries_of; by rewrite (dict_get_entries _ _ _ Hkey)|].
  destruct (Args.probe args); (split; [reflexivity|]); [|reflexivity].
  eexists. by rewrite http_probe_run.
Qed.

(** X16: the report holds, under [root], the record set of the six root
    queries for the domain of the run and, under [dns], an empty
    object. *)
Theorem report_root args run :
  outcome (main args) = Ok run ->
  exists root,
    outcome (root_records (normalize_domain (Args.domain args))) = Ok root
    /\ Dict.keys root = ["NS"; "MX"; "SOA"; "TXT"; "A"; "AAAA"]
    /\ Dict.get "root" (results run) = Some (of_records root)
    /\ Dict.get "dns" (results run) = Some (VDict []).
Proof.
  intros Hrun.
  destruct (main_returns _ _ Hrun) as (Hnew & candidates & _ & Hres & _).
  rewrite Hres, (root_records_run Hnew). eexists. by repeat split.
Qed.

End LookupFacts.

(** X14 on the run of [Stub.args]. *)
Lemma reported_hosts_below_domain_witness :
  exists run,
    outcome (main (W := Stub.world) Stub.args) = Ok run
    /\ "dev.example.com" ∈ Dict.keys (subdomains run)
    /\ ("dev.example.com" = "example.com"
        \/ exists p, "dev.example.com" = p ++ "." ++ "example.com").
Proof.
  assert (Hrun : exists run,
            outcome (main (W := Stub.world) Stub.args) = Ok run
            /\ "dev.example.com" ∈ Dict.keys (subdomains run)).
  { eexists. split; [vm_compute; reflexivity|]. in_list. }
  destruct Hrun as (run & Hrun & Hkey). exists run.
  split; [exact Hrun|]. split; [exact Hkey|].
  exact (proj2 (reported_hosts_below_domain (W := Stub.world) Stub.args run
                  "dev.example.com" Hrun Hkey)).
Defined.

(** X15 on the run of [Stub.args]. *)
Lemma report_lookup_witness :
  exists run rec entry,
    outcome (main (W := Stub.world) Stub.args) = Ok run
    /\ "dev.example.com" ∈ Dict.keys (subdomains run)
    /\ outcome (resolve_host (W := Stub.world) "dev.example.com") = Ok rec
    /\ Dict.get "dev.example.com" (subdomains run) = Some (VDict entry)
    /\ Dict.get "records" entry = Some (of_records rec).
Proof.
  assert (Hrun : exists run,
            outcome (main (W := Stub.world) Stub.args) = Ok run
            /\ "dev.example.com" ∈ Dict.keys (subdomains run)).
  { eexists. split; [vm_compute; reflexivity|]. in_list. }
  destruct Hrun as (run & Hrun & Hkey).
  destruct (report_lookup (W := Stub.world) Stub.args run "dev.example.com"
              Hrun Hkey) as (rec & entry & Hrec & Hget & Hrecords & _).
  exists run, rec, entry. by repeat split.
Defined.

(** X16 on the run of [Stub.args]. *)
Lemma report_root_witness :
  exists run root,
    outcome (main (W := Stub.world) Stub.args) = Ok run
    /\ outcome (root_records (W := Stub.world) "example.com") = Ok root
    /\ Dict.get "root" (results run) = Some (of_records root).
Proof.
  assert (Hrun : exists run,
            outcome (main (W := Stub.world) Stub.args) = Ok run)
    by (eexists; vm_compute; reflexivity).
  destruct Hrun as (run & Hrun).
  destruct (report_root (W := Stub.world) Stub.args run Hrun)
    as (root & Hroot & _ & Hget & _).
  exists run, root. split; [exact Hrun|]. split; [exact Hroot|exact Hget].
Defined.

(** ** The summary *)

Section SummaryFacts.
Context {W : World}.

Lemma dict_get_fmap {A B} (f : A -> B) k (d : dict A) :
  Dict.get k (map (fun kv => (fst kv, f (snd kv))) d) = f <$> Dict.get k d.
Proof.
  induction d as [|[k' v] d IH]; simpl; [done|].
  by destruct (String.eqb k' k).
Qed.

Lemma strings_map l : Summary.strings (map VStr l) = Ok l.
Proof. induction l as [|s l IH]; simpl; [done|]. by rewrite IH. Qed.

Lemma join_strings sep l :
  Summary.join sep (VList (map VStr l)) = Ok (String.concat sep l).
Proof. unfold Summary.join. simpl. by rewrite strings_map. Qed.

Lemma part_of_records rec k :
  Summary.part (of_records rec) k = Ok (shown rec k).
Proof.
  unfold Summary.part, shown, of_records. cbn [PyVal.get and_then].
  unfold Summary.getitem, Dict.getitem.
  rewrite !(dict_get_fmap (fun l => VList (map VStr l))).
  destruct (Dict.get k rec) as [[|x l]|]; simpl; [done| |done].
  change (VStr x :: map VStr l) with (map VStr (x :: l)).
  by rewrite join_strings.
Qed.

Lemma root_section_of_records rec :
  Summary.root_section (of_records rec) = (root_text rec, Ok tt).
Proof.
  unfold Summary.root_section, of_records, root_text. f_equal.
  induction rec as [|[k l] rec IH]; [done|].
  cbn [map flat_map fst snd]. rewrite IH. by destruct l.
Qed.

Lemma host_line_entry probe host :
  Summary.host_line host (entry_of probe host) =
    Ok ("- " ++ host ++ "  (" ++ host_parts (records host) ++ ")").
Proof.
  unfold Summary.host_line, entry_of.
  assert (Hrec : Summary.getitem
                   (VDict (if probe
                           then [("records", of_records (records host));
                                 ("http",
                                  of_probe [("https", probe_result host "https");
                                            ("http", probe_result host "http")])]
                           else [("records", of_records (records host))]))
                   "records" = Ok (of_records (records host)))
    by (by destruct probe).
  rewrite Hrec. cbn [and_then]. by rewrite !part_of_records.
Qed.

Lemma host_section_entries probe hosts :
  Summary.host_section probe (entries_of probe hosts) =
    (concat (map (host_block probe)
               (filter (fun h => Is_true (live h)) hosts)), Ok tt).
Proof.
  induction hosts as [|h hosts IH]; [done|].
  rewrite entries_of_cons, filter_cons.
  destruct (live h); simpl; repeat case_decide; try done.
  rewrite host_line_entry, IH. unfold Summary.seq. cbn [fst snd concat map].
  f_equal. unfold host_block, entry_of. by destruct probe.
Qed.

(** X17: the summary of a run that returned is printed without
    exception: the title with the domain, the root section with one line
    for each record type of the root that has records, and one line for
    each host of the report, in the order of the report, followed by the
    line of its probe when the run probes.  The line of a host shows its
    CNAME, A and AAAA records, in this order, and no TXT record. *)
Theorem summary_of_run args run :
  outcome (main args) = Ok run ->
  let domain := normalize_domain (Args.domain args) in
  exists root,
    outcome (root_records domain) = Ok root
    /\ Summary.summary (Args.probe args) domain (results run) =
         (([("== " ++ domain ++ " ==")%string;
            (Summary.newline ++ "[Root DNS]")%string]
           ++ root_text root
           ++ [(Summary.newline ++ "[Resolved subdomains]")%string]
           ++ concat (map (host_block (Args.probe args))
                        (Dict.keys (subdomains run))))%list,
          Ok tt)
    /\ forall host,
         host ∈ Dict.keys (subdomains run) ->
         exists rec p,
           outcome (resolve_host host) = Ok rec
           /\ outcome (http_probe host) = Ok p
           /\ host_block (Args.probe args) host =
                ("- " ++ host ++ "  ("
                 ++ String.concat " | "
                      (shown rec "CNAME" ++ shown rec "A"
                       ++ shown rec "AAAA")%list
                 ++ ")")
                  :: (if Args.probe args
                      then ["    HTTP: " ++ PyVal.str (of_probe p)]
                      else []).
Proof.
  intros Hrun domain.
  destruct (main_returns _ _ Hrun) as (Hnew & candidates & _ & Hres & _).
  fold domain in Hres. exists (root_of domain).
  split; [by rewrite (root_records_run Hnew)|]. split.
  - rewrite (subdomains_final _ _ _ _ Hres), entries_of_keys, Hres.
    unfold Summary.summary, final_results.
    change (Dict.getitem "root" _) with (Ok (of_records (root_of domain))).
    change (Dict.getitem "subdomains" _)
      with (Ok (VDict (entries_of (Args.probe args) (sorted candidates)))).
    cbv beta iota. rewrite root_section_of_records, host_section_entries.
    reflexivity.
  - intros host _. eexists _, _.
    split; [by rewrite (resolve_host_run Hnew)|].
    split; [by rewrite http_probe_run|]. reflexivity.
Qed.

(** X18: the line of a reported host never has empty parentheses: it
    shows at least one CNAME, A or AAAA record. *)
Theorem host_line_not_empty args run host :
  outcome (main args) = Ok run ->
  host ∈ Dict.keys (subdomains run) ->
  exists entry parts,
    Dict.get host (subdomains run) = Some entry
    /\ Summary.host_line host entry = Ok ("- " ++ host ++ "  (" ++ parts ++ ")")
    /\ parts <> "".
Proof.
  intros Hrun Hkey.
  destruct (main_returns _ _ Hrun) as (_ & candidates & _ & Hres & _).
  rewrite (subdomains_final _ _ _ _ Hres) in Hkey |- *.
  rewrite entries_of_keys in Hkey.
  exists (entry_of (Args.probe args) host), (host_parts (records host)).
  split; [unfold entries_of; by rewrite (dict_get_entries _ _ _ Hkey)|].
  split; [apply host_line_entry|].
  apply list_elem_of_filter in Hkey as [Hlive%Is_true_true _].
  unfold live in Hlive. unfold host_parts, shown, records.
  cbn [Dict.get String.eqb Ascii.eqb Bool.eqb].
  destruct (answers host "CNAME") as [|c cs].
  - destruct (answers host "A") as [|a as'].
    + destruct (answers host "AAAA") as [|q qs]; [discriminate|].
      simpl. destruct (String.concat "," (q :: qs)); discriminate.
    + destruct (answers host "AAAA") as [|q qs]; simpl; discriminate.
  - destruct (answers host "A"), (answers host "AAAA"); simpl; discriminate.
Qed.

End SummaryFacts.

(** X17 on the run of [Stub.args]. *)
Lemma summary_of_run_witness :
  exists run lines,
    outcome (main (W := Stub.world) Stub.args) = Ok run
    /\ Summary.summary true "example.com" (results run) = (lines, Ok tt).
Proof.
  assert (Hrun : exists run,
            outcome (main (W := Stub.world) Stub.args) = Ok run)
    by (eexists; vm_compute; reflexivity).
  destruct Hrun as (run & Hrun).
  destruct (summary_of_run (W := Stub.world) Stub.args run Hrun)
    as (root & _ & Hsum & _).
  exists run. eexists. split; [exact Hrun|exact Hsum].
Defined.

(** X18 on the run of [Stub.args]. *)
Lemma host_line_not_empty_witness :
  exists run entry parts,
    outcome (main (W := Stub.world) Stub.args) = Ok run
    /\ "www.example.com" ∈ Dict.keys (subdomains run)
    /\ Summary.host_line "www.example.com" entry
       = Ok ("- " ++ "www.example.com" ++ "  (" ++ parts ++ ")")
    /\ parts <> "".
Proof.
  assert (Hrun : exists run,
            outcome (main (W := Stub.world) Stub.args) = Ok run
            /\ "www.example.com" ∈ Dict.keys (subdomains run)).
  { eexists. split; [vm_compute; reflexivity|]. in_list. }
  destruct Hrun as (run & Hrun & Hkey).
  destruct (host_line_not_empty (W := Stub.world) Stub.args run
              "www.example.com" Hrun Hkey) as (entry & parts & _ & Hline & Hne).
  exists run, entry, parts. by repeat split.
Defined.

(** ** The sources of the candidates *)

Section CandidateFacts.
Context {W : World}.

(** X19: the candidates are the words of the word list, or of the built-in
    list when no word list is named, each followed by a dot and the
    domain, together with the names from crt.sh unless it is disabled; a
    name that comes from both is one candidate. *)
Theorem candidates_of_sources args domain candidates :
  outcome (collect_candidates args domain) = Ok candidates ->
  exists base,
    match given (Args.wordlist args) with
    | Some path =>
        exists lines, open_read path = Ok lines /\ base = wordlist_lines lines
    | None => base = DEFAULT_SUBS
    end
    /\ forall host,
         host ∈ candidates <->
         (exists word, word ∈ base /\ host = word ++ "." ++ domain)
         \/ (Args.no_crt args = false
             /\ exists subs,
                  outcome (fetch_crtsh domain) = Ok subs /\ host ∈ subs).
Proof.
  unfold collect_candidates. intros Hc.
  assert (Hmerge : forall base host,
            host ∈ (if Args.no_crt args
                    then add_words domain base ∅
                    else add_words domain base ∅ ∪ ct_names domain) <->
            (exists word, word ∈ base /\ host = word ++ "." ++ domain)
            \/ (Args.no_crt args = false
                /\ exists subs,
                     outcome (fetch_crtsh domain) = Ok subs /\ host ∈ subs)).
  { intros base host. rewrite fetch_crtsh_run. cbn [outcome fst].
    destruct (Args.no_crt args);
      rewrite ?elem_of_union, add_words_elem, elem_of_empty.
    - split; [intros [[]|?]; auto|]. intros [?|[? _]]; [auto|done].
    - split.
      + intros [[[]|?]|?]; [auto|]. right. split; [done|]. by eexists.
      + intros [?|[_ (subs & [= <-] & ?)]]; auto. }
  destruct (given (Args.wordlist args)) as [path|].
  - rewrite load_wordlist_run in Hc. destruct (open_read path) as [lines|e].
    + exists (wordlist_lines lines). split; [by exists lines|].
      intros host. rewrite <- Hmerge. rewrite bind_ok in Hc. cbv beta in Hc.
      destruct (Args.no_crt args).
      * cbn [ret outcome fst] in Hc. by injection Hc as <-.
      * rewrite fetch_crtsh_run, bind_ok in Hc. cbn [ret outcome fst] in Hc.
        by injection Hc as <-.
    + rewrite bind_raise in Hc. discriminate.
  - exists DEFAULT_SUBS. split; [done|].
    intros host. rewrite <- Hmerge. rewrite bind_ret in Hc.
    destruct (Args.no_crt args).
    + cbn [ret outcome fst] in Hc. by injection Hc as <-.
    + rewrite fetch_crtsh_run, bind_ok in Hc. cbn [ret outcome fst] in Hc.
      by injection Hc as <-.
Qed.

Lemma rstrip_by_empty p s :
  PyStr.rstrip_by p s = "" -> all_chars p s = true.
Proof.
  induction s as [|c s IH]; simpl; [done|].
  destruct (PyStr.rstrip_by p s) as [|c' r]; [|discriminate].
  destruct (p c); [|discriminate]. intros _. by apply IH.
Qed.

Lemma all_chars_lower_dot s :
  all_chars PyStr.is_dot (PyStr.lower s) = all_chars PyStr.is_dot s.
Proof.
  induction s as [|c s IH]; simpl; [done|].
  by rewrite lower_char_dot, IH.
Qed.

(** X20: an empty domain is not refused. The domain of the run is empty
    exactly when the argument, once the white space around it is stripped,
    has nothing but dots (the empty and the blank argument among them;
    white space between dots stays, and the domain with it). The root
    queries are then made for the empty name, and the candidates of the
    built-in list are its words followed by a dot. *)
Theorem blank_domain_not_refused args :
  (normalize_domain (Args.domain args) = "" <->
   all_chars PyStr.is_dot (PyStr.strip (Args.domain args)) = true)
  /\ (normalize_domain (Args.domain args) = "" ->
      (resolver_new = Ok tt ->
       exists rest, trace (main args) = (root_events "" ++ rest)%list)
      /\ (forall candidates word,
            outcome (collect_candidates args
                       (normalize_domain (Args.domain args))) = Ok candidates ->
            given (Args.wordlist args) = None ->
            word ∈ DEFAULT_SUBS -> word ++ "." ∈ candidates)).
Proof.
  split.
  - unfold normalize_domain, PyStr.rstrip_dots. split.
    + intros Hn%rstrip_by_empty. by rewrite all_chars_lower_dot in Hn.
    + intros Hd. rewrite (lower_all_dots _ Hd). by apply rstrip_by_all.
  - intros Hn. split.
    + intros Hnew.
      destruct (collect_candidates args (normalize_domain (Args.domain args)))
        as [[candidates|e] t] eqn:Hc.
      * rewrite (main_run Hnew _ _ _ Hc), Hn. by eexists.
      * rewrite (main_run_raise Hnew _ _ _ Hc), Hn. by eexists.
    + rewrite Hn. intros candidates word Hc Hnone Hword.
      assert (Hin : word ++ "." ∈ add_words "" DEFAULT_SUBS ∅).
      { apply add_words_elem. right. by exists word. }
      unfold collect_candidates in Hc. rewrite Hnone, bind_ret in Hc.
      destruct (Args.no_crt args).
      * cbn [ret outcome fst] in Hc. by injection Hc as <-.
      * rewrite fetch_crtsh_run, bind_ok in Hc. cbn [ret outcome fst] in Hc.
        injection Hc as <-. apply elem_of_union. by left.
Qed.

End CandidateFacts.

(** X19 on the candidates of the run of [Stub.args]. *)
Lemma candidates_of_sources_witness :
  outcome (collect_candidates (W := Stub.world) Stub.args "example.com")
  = Ok Stub.candidates
  /\ exists base,
       base = ["www"; "dev"]
       /\ forall host,
            host ∈ Stub.candidates <->
            (exists word, word ∈ base /\ host = word ++ "." ++ "example.com")
            \/ (Args.no_crt Stub.args = false
                /\ exists subs,
                     outcome (fetch_crtsh (W := Stub.world) "example.com")
                     = Ok subs /\ host ∈ subs).
Proof.
  assert (Hc : outcome (collect_candidates (W := Stub.world) Stub.args
                          "example.com") = Ok Stub.candidates)
    by (vm_compute; reflexivity).
  split; [exact Hc|].
  destruct (candidates_of_sources (W := Stub.world) Stub.args "example.com"
              Stub.candidates Hc) as (base & (lines & Hlines & ->) & Hiff).
  injection Hlines as <-. by eexists.
Defined.

(** X20 on the argument " . ", which gives the empty domain, and on the
    argument ". .", which does not. *)
Lemma blank_domain_not_refused_witness :
  normalize_domain (Args.domain (with_domain Stub.args " . ")) = ""
  /\ normalize_domain (Args.domain (with_domain Stub.args ". .")) <> "".
Proof.
  split.
  - apply (proj1 (blank_domain_not_refused (W := Stub.world)
                    (with_domain Stub.args " . "))). reflexivity.
  - intros Hn.
    apply (proj1 (blank_domain_not_refused (W := Stub.world)
                    (with_domain Stub.args ". ."))) in Hn. discriminate.
Defined.
